(** * EdOS: tenant-scoped authorization, route guards, attendance and grade
      aggregation, and the shared API client.

    A shallow embedding of the React front end of the school administration
    application (route guard, attendance marking page, parent and student
    portals, axios client) together with the two back-end services the
    specification describes (authorization guard, aggregation service),
    followed by the properties stated about them. *)

From Stdlib Require Import QArith Qcanon Qround Lqa.
From stdpp Require Import gmap strings list fin_maps.

Open Scope string_scope.

(** ** JavaScript values that the pages branch on

    Only the fragment of the value space that reaches the modelled
    expressions: [undefined], [null], numbers (exact rationals standing for
    the JSON numbers the back end sends) and strings. *)
Module Js.

Inductive value :=
| Undefined
| Null
| Num (n : Qc)
| Str (s : string).

(** ToBoolean: [undefined], [null], [0] and the empty string are falsy. *)
Definition truthy (v : value) : bool :=
  match v with
  | Undefined | Null => false
  | Num n => negb (Qc_eq_bool n 0)
  | Str s => negb (String.eqb s "")
  end.

(** [a || b] *)
Definition or (a b : value) : value := if truthy a then a else b.

End Js.

(** ** Authorization guard (back end) *)
Module Guard.

(** Modelled from the spec: the role enumeration of the User entity
    (section 3). *)
Inductive Role :=
| super_admin | school_admin | principal | teacher
| parent | student | finance_officer | staff.

(** Modelled from the spec: the actions of section 4.1. *)
Inductive Action := create | read | update | deactivate | bulk.

Definition ResourceType := string.
Definition TenantId := string.

(** Modelled from the spec: the acting user, [(user_id, school_id, role)]
    as the identity provider supplies it (section 6). *)
Record User := {
  user_id : string;
  school_id : TenantId;
  role : Role;
}.

(** Modelled from the spec: the error taxonomy of section 7. *)
Inductive DenyReason := CrossTenantAccess | ForbiddenAction | NotOwner.

(** Modelled from the spec: [Allow | Deny(reason)]. *)
Inductive Decision :=
| Allow
| Deny (reason : DenyReason).

#[global] Instance Action_eq_dec : EqDecision Action.
Proof. solve_decision. Defined.

#[global] Instance Role_eq_dec : EqDecision Role.
Proof. solve_decision. Defined.

(** Modelled from the spec: the Role-Permission Table of section 4.1, a
    static mapping from a role to its set of (resource, action) pairs.  The
    back end that holds the table is not part of the sources, so its
    contents are left arbitrary. *)
Definition PermissionTable := Role -> list (ResourceType * Action).

(** Modelled from the spec: the roles section 4.2 calls ownership-scoped
    (parent, student, teacher). *)
Definition ownership_scoped (r : Role) : bool :=
  match r with
  | parent | student | teacher => true
  | _ => false
  end.

(** What the guard consults, in the order it consults it. *)
Inductive Consulted :=
| TenantCheck
| TableLookup (r : Role) (res : ResourceType)
| OwnershipLookup.

(** Modelled from the spec: the algorithm of section 4.2 (the back-end
    [authorize] is not part of the sources).  Steps 1 to 4 in the order the
    specification gives them; the second component records every check and
    lookup made on the way to the decision. *)
Definition authorize_traced (table : PermissionTable) (user : User)
    (action : Action) (resourceType : ResourceType)
    (resourceTenantId : TenantId) (ownershipCheck : User -> bool)
  : Decision * list Consulted :=
  if negb (bool_decide (resourceTenantId = school_id user)) then
    (Deny CrossTenantAccess, [TenantCheck])
  else
    let permitted := table (role user) in
    if negb (bool_decide ((resourceType, action) ∈ permitted)) then
      (Deny ForbiddenAction, [TenantCheck; TableLookup (role user) resourceType])
    else if ownership_scoped (role user) then
      if ownershipCheck user then
        (Allow, [TenantCheck; TableLookup (role user) resourceType; OwnershipLookup])
      else
        (Deny NotOwner, [TenantCheck; TableLookup (role user) resourceType; OwnershipLookup])
    else
      (Allow, [TenantCheck; TableLookup (role user) resourceType]).

(** Modelled from the spec: [authorize(user, action, resourceType,
    resourceTenantId, ownershipCheck)] of section 6, the decision of the
    algorithm above. *)
Definition authorize (table : PermissionTable) (user : User)
    (action : Action) (resourceType : ResourceType)
    (resourceTenantId : TenantId) (ownershipCheck : User -> bool) : Decision :=
  fst (authorize_traced table user action resourceType resourceTenantId ownershipCheck).

End Guard.

(** ** Route guard (App.js) and the authentication context it reads *)
Module Routes.

(** The stored user object; [user_type] is [None] when the field is missing. *)
Record AuthUser := {
  id : string;
  user_type : option string;
}.

(** State held by [AuthProvider]. *)
Record AuthState := {
  user : option AuthUser;
  school : option string;
  loading : bool;
}.

(** [useState(null)], [useState(null)], [useState(true)] *)
Definition initial : AuthState :=
  {| user := None; school := None; loading := true |}.

(** The mount effect: restore the stored user when both the user entry and
    the access token are present, then clear [loading]. *)
Definition mount_effect (storedUser : option AuthUser)
    (storedSchool : option string) (token : option string)
    (st : AuthState) : AuthState :=
  match storedUser, token with
  | Some u, Some _ =>
      {| user := Some u;
         school := match storedSchool with Some s => Some s | None => school st end;
         loading := false |}
  | _, _ => {| user := user st; school := school st; loading := false |}
  end.

(** State updates of [login], [register], [logout], [updateUser] and
    [updateSchool]; none of them touches [loading]. *)
Definition login (userData : AuthUser) (st : AuthState) : AuthState :=
  {| user := Some userData; school := school st; loading := loading st |}.

Definition register (userData : AuthUser) (schoolData : string)
    (st : AuthState) : AuthState :=
  {| user := Some userData; school := Some schoolData; loading := loading st |}.

Definition logout (st : AuthState) : AuthState :=
  {| user := None; school := None; loading := loading st |}.

Definition updateUser (userData : AuthUser) (st : AuthState) : AuthState :=
  {| user := Some userData; school := school st; loading := loading st |}.

Definition updateSchool (schoolData : string) (st : AuthState) : AuthState :=
  {| user := user st; school := Some schoolData; loading := loading st |}.

(** States the provider goes through: the initial one, the one after the
    mount effect (which runs once, right after the first render), and from
    then on any sequence of the context's operations. *)
Inductive mounted : AuthState -> Prop :=
| mounted_effect su ss tok : mounted (mount_effect su ss tok initial)
| mounted_login u st : mounted st -> mounted (login u st)
| mounted_register u s st : mounted st -> mounted (register u s st)
| mounted_logout st : mounted st -> mounted (logout st)
| mounted_updateUser u st : mounted st -> mounted (updateUser u st)
| mounted_updateSchool s st : mounted st -> mounted (updateSchool s st).

Inductive reachable : AuthState -> Prop :=
| reachable_initial : reachable initial
| reachable_mounted st : mounted st -> reachable st.

(** [isAuthenticated: !!user] *)
Definition isAuthenticated (st : AuthState) : bool :=
  match user st with Some _ => true | None => false end.

(** What a route element renders to. *)
Inductive View :=
| Spinner
| NavigateTo (to : string)
| PageView (name : string)
| PlaceholderView (title : string)
| LayoutView (outlet : View).

(** [allowedTypes.includes(user?.user_type)] *)
Definition includes (allowedTypes : list string) (t : option string) : bool :=
  match t with
  | Some s => bool_decide (s ∈ allowedTypes)
  | None => false
  end.

(** [user?.user_type] *)
Definition user_type_of (st : AuthState) : option string :=
  match user st with
  | Some u => user_type u
  | None => None
  end.

Definition ProtectedRoute (st : AuthState) (allowedTypes : option (list string))
    (children : View) : View :=
  if loading st then Spinner
  else if negb (isAuthenticated st) then NavigateTo "/login"
  else
    match allowedTypes with
    | Some types =>
        if negb (includes types (user_type_of st)) then NavigateTo "/dashboard"
        else children
    | None => children
    end.

Definition PublicRoute (st : AuthState) (children : View) : View :=
  if loading st then Spinner
  else if isAuthenticated st then NavigateTo "/dashboard"
  else children.

(** The element tree of [AppRoutes]. *)
Inductive Element :=
| EProtected (allowedTypes : option (list string)) (children : Element)
| EPublic (children : Element)
| ENavigate (to : string)
| EPage (name : string)
| EPlaceholder (title : string)
| ELayout (outlet : Element).

Fixpoint render (st : AuthState) (e : Element) : View :=
  match e with
  | EProtected allowed c => ProtectedRoute st allowed (render st c)
  | EPublic c => PublicRoute st (render st c)
  | ENavigate to => NavigateTo to
  | EPage name => PageView name
  | EPlaceholder title => PlaceholderView title
  | ELayout outlet => LayoutView (render st outlet)
  end.

Definition adminTypes : list string := ["school_admin"; "super_admin"; "principal"].

(** Route paths are matched without regard to letter case: no route of
    [AppRoutes] sets [caseSensitive].  The patterns are the lower-case
    literals of the route table, so a segment matches when its lower-case
    form is the pattern. *)
Definition lower_ascii (c : Ascii.ascii) : Ascii.ascii :=
  let n := Ascii.N_of_ascii c in
  if ((65 <=? n) && (n <=? 90))%N then Ascii.ascii_of_N (n + 32) else c.

Fixpoint lower (s : string) : string :=
  match s with
  | EmptyString => EmptyString
  | String c rest => String (lower_ascii c) (lower rest)
  end.

Definition matches (segment pattern : string) : bool :=
  String.eqb (lower segment) pattern.

(** The child routes of the layout route ["/"], by path segment. *)
Definition layout_child (segment : string) : Element :=
  if matches segment "dashboard" then EPage "DashboardPage"
  else if matches segment "school-setup" then
    EProtected (Some adminTypes) (EPage "SchoolSetupPage")
  else if matches segment "users" then
    EProtected (Some adminTypes) (EPage "UsersPage")
  else if matches segment "classes" then
    EProtected (Some adminTypes) (EPage "ClassesPage")
  else if matches segment "subjects" then
    EProtected (Some adminTypes) (EPage "SubjectsPage")
  else if matches segment "students" then EPage "StudentsPage"
  else if matches segment "attendance" then EPage "AttendancePage"
  else if matches segment "grades" then EPage "GradesPage"
  else if matches segment "my-classes" then
    EProtected (Some ["teacher"]) (EPlaceholder "My Classes")
  else if matches segment "assignments" then EPage "GradesPage"
  else if matches segment "gradebook" then EPage "GradesPage"
  else if matches segment "schedule" then EPlaceholder "Schedule"
  else if matches segment "my-children" then
    EProtected (Some ["parent"]) (EPlaceholder "My Children")
  else if matches segment "leave-request" then
    EProtected (Some ["parent"]) (EPlaceholder "Leave Request")
  else if matches segment "timetable" then EPlaceholder "Timetable"
  else if matches segment "calendar" then EPlaceholder "Calendar"
  else if matches segment "messages" then EPlaceholder "Messages"
  else if matches segment "reports" then EPlaceholder "Reports"
  else if matches segment "settings" then EPlaceholder "Settings"
  else if matches segment "profile" then EPlaceholder "Profile"
  else ENavigate "/dashboard".

(** [AppRoutes], for a location given by the segments of its decoded
    pathname. *)
Definition AppRoutes (path : list string) : Element :=
  match path with
  | [] => EProtected None (ELayout (ENavigate "/dashboard"))
  | [segment] =>
      if matches segment "login" then EPublic (EPage "LoginPage")
      else if matches segment "register" then EPublic (EPage "RegisterPage")
      else EProtected None (ELayout (layout_child segment))
  | _ => EProtected None (ELayout (ENavigate "/dashboard"))
  end.

End Routes.

(** ** Settled promises *)
Module Promise.

(** The outcome of awaiting a promise: fulfilled with a value or rejected
    with a reason. *)
Inductive settled (A : Type) :=
| Fulfilled (a : A)
| Rejected (reason : string).
Arguments Fulfilled {A} a.
Arguments Rejected {A} reason.

(** [p.catch(handler)] for a handler that returns a plain value. *)
Definition catch {A} (p : settled A) (handler : string -> A) : settled A :=
  match p with
  | Fulfilled a => Fulfilled a
  | Rejected reason => Fulfilled (handler reason)
  end.

(** [Promise.all([p1, p2])]: both values, or a rejection.  When both
    promises reject, the one listed first is reported (the order in time of
    the two rejections is not modelled). *)
Definition all2 {A B} (p1 : settled A) (p2 : settled B) : settled (A * B) :=
  match p1, p2 with
  | Fulfilled a, Fulfilled b => Fulfilled (a, b)
  | Rejected reason, _ => Rejected reason
  | _, Rejected reason => Rejected reason
  end.

End Promise.

(** ** Aggregation service (back end) *)
Module Aggregation.

(** Modelled from the spec: the status enumeration of an AttendanceRecord
    (section 3). *)
Inductive Status := Present | Absent | Late | Excused | Medical.

#[global] Instance Status_eq_dec : EqDecision Status.
Proof. solve_decision. Defined.

(** Modelled from the spec: an AttendanceRecord [(student_id, date,
    status)]; [date] is a day number. *)
Record AttendanceRecord := {
  student_id : string;
  date : Z;
  status : Status;
}.

(** Modelled from the spec: the result
    [{present, absent, late, excused, percentage}] of section 6. *)
Record AttendanceSummary := {
  present : nat;
  absent : nat;
  late : nat;
  excused : nat;
  percentage : Qc;
}.

(** Modelled from the spec: the count of the records of one status. *)
Definition count_status (s : Status) (records : list AttendanceRecord) : nat :=
  length (filter (fun r => status r = s) records).

(** Modelled from the spec: the records that fall within
    [[start_date, end_date]], the marked days of the range. *)
Definition marked_in (records : list AttendanceRecord) (start_date end_date : Z)
  : list AttendanceRecord :=
  filter (fun r => (start_date <= date r)%Z /\ (date r <= end_date)%Z) records.

Definition Qc_of_nat (n : nat) : Qc := Q2Qc (inject_Z (Z.of_nat n)).

(** Modelled from the spec: rounding to one decimal, taken as the nearest
    multiple of 1/10 with a tie going up. *)
Definition round1 (x : Qc) : Qc :=
  Q2Qc (inject_Z (Qfloor (x * Q2Qc 10 + Q2Qc (1 # 2))%Qc) / 10).

(** Modelled from the spec: the attendance summary of section 4.3 (the
    back-end aggregation is not part of the sources).  Counts per status
    over the records of the range and
    [present_count / total_marked_days * 100] rounded to one decimal, with
    0 when nothing is marked. *)
Definition summarizeAttendance (records : list AttendanceRecord)
    (start_date end_date : Z) : AttendanceSummary :=
  let marked := marked_in records start_date end_date in
  let total_marked_days := length marked in
  let present_count := count_status Present marked in
  {| present := present_count;
     absent := count_status Absent marked;
     late := count_status Late marked;
     excused := count_status Excused marked;
     percentage :=
       match total_marked_days with
       | O => Q2Qc 0
       | S _ =>
           round1 (Qc_of_nat present_count / Qc_of_nat total_marked_days * Q2Qc 100)%Qc
       end |}.

(** A value [r] is [x] rounded to one decimal: a whole number of tenths
    within half a tenth of [x]. *)
Definition rounded_to_one_decimal (x r : Qc) : Prop :=
  (exists tenths : Z, r = Q2Qc (inject_Z tenths / 10)) /\
  (x - Q2Qc (1 # 20) <= r)%Qc /\ (r <= x + Q2Qc (1 # 20))%Qc.

(** Modelled from the spec: a graded assignment with its [score],
    [max_score] and [weight]. *)
Record Grade := {
  score : Qc;
  max_score : Qc;
  weight : Qc;
}.

Definition Qc_sum (l : list Qc) : Qc := foldr Qcplus (Q2Qc 0) l.

(** Modelled from the spec: the graded assignments that count, those whose
    [max_score] is not 0. *)
Definition valid_grades (grades : list Grade) : list Grade :=
  filter (fun g => max_score g <> Q2Qc 0) grades.

(** Modelled from the spec: the grade average of section 4.3 (the back-end
    aggregation is not part of the sources):
    [Σ(score_i / max_score_i * weight_i) / Σ(weight_i) * 100] over the
    entries with [max_score <> 0], and [None] (null) when there is none.
    Division is that of the rationals, total, with [x / 0 = 0]. *)
Definition averageGrades (grades : list Grade) : option Qc :=
  match valid_grades grades with
  | [] => None
  | valid =>
      Some (Qc_sum (map (fun g => score g / max_score g * weight g) valid)
            / Qc_sum (map weight valid) * Q2Qc 100)%Qc
  end.

(** Sample data: one student marked on days 1 to 10 of a month, 7 times
    present, 2 absent, 1 late. *)
Definition marked (day : Z) (s : Status) : AttendanceRecord :=
  {| student_id := "st-1"; date := day; status := s |}.

Definition ten_marked_days : list AttendanceRecord :=
  [marked 1 Present; marked 2 Present; marked 3 Absent; marked 4 Present;
   marked 5 Late; marked 6 Present; marked 7 Present; marked 8 Absent;
   marked 9 Present; marked 10 Present].

(** Sample data: [{score: 8, max: 10, weight: 1}, {score: 0, max: 0, weight: 1}] *)
Definition one_valid_one_invalid : list Grade :=
  [{| score := Q2Qc 8; max_score := Q2Qc 10; weight := Q2Qc 1 |};
   {| score := Q2Qc 0; max_score := Q2Qc 0; weight := Q2Qc 1 |}].

End Aggregation.

(** ** AttendancePage.jsx: marking state and client-side summary *)
Module AttendancePage.
Import Promise.

(** A row of the class attendance response; [status] is null or undefined
    for a student not marked yet. *)
Record StudentRow := {
  student_id : string;
  status : Js.value;
}.

#[global] Instance value_eq_dec : EqDecision Js.value.
Proof. solve_decision. Defined.

(** The values of [ATTENDANCE_STATUSES]. *)
Definition ATTENDANCE_STATUSES : list Js.value :=
  [Js.Str "present"; Js.Str "absent"; Js.Str "late"; Js.Str "excused";
   Js.Str "medical"].

(** Component state.  [attendanceRecords] is the object keyed by student
    id; the order of its keys is not kept, nothing below depends on it. *)
Record State := {
  selectedClass : string;
  selectedSection : string;
  selectedDate : string;
  attendanceData : list StudentRow;
  loading : bool;
  saving : bool;
  attendanceRecords : gmap string Js.value;
}.

Record BulkRecord := {
  bulk_student_id : string;
  bulk_status : Js.value;
}.

Record BulkPayload := {
  class_id : string;
  section_id : option string;
  date : string;
  attendance_type : string;
  records : list BulkRecord;
}.

(** The two [attendanceAPI] calls the page makes. *)
Record AttendanceAPI := {
  getClassAttendance : string -> string -> option string -> settled (list StudentRow);
  bulkMarkAttendance : BulkPayload -> settled unit;
}.

Inductive Effect :=
| ToastError (msg : string)
| ToastSuccess (msg : string)
| Posted (payload : BulkPayload).

(** [selectedSection || undefined] *)
Definition section_or_undefined (s : string) : option string :=
  if String.eqb s "" then None else Some s.

(** The [forEach] of [fetchAttendance]:
    [records[student.student_id] = student.status || 'present']. *)
Definition initial_records (data : list StudentRow) : gmap string Js.value :=
  foldl (fun records student =>
           <[student_id student := Js.or (status student) (Js.Str "present")]> records)
        ∅ data.

Definition fetchAttendance (api : AttendanceAPI) (st : State) : State * list Effect :=
  match getClassAttendance api (selectedClass st) (selectedDate st)
          (section_or_undefined (selectedSection st)) with
  | Fulfilled data =>
      ({| selectedClass := selectedClass st;
          selectedSection := selectedSection st;
          selectedDate := selectedDate st;
          attendanceData := data;
          loading := false;
          saving := saving st;
          attendanceRecords := initial_records data |}, [])
  | Rejected _ =>
      ({| selectedClass := selectedClass st;
          selectedSection := selectedSection st;
          selectedDate := selectedDate st;
          attendanceData := attendanceData st;
          loading := false;
          saving := saving st;
          attendanceRecords := attendanceRecords st |},
       [ToastError "Failed to load attendance"])
  end.

Definition set_records (records : gmap string Js.value) (st : State) : State :=
  {| selectedClass := selectedClass st;
     selectedSection := selectedSection st;
     selectedDate := selectedDate st;
     attendanceData := attendanceData st;
     loading := loading st;
     saving := saving st;
     attendanceRecords := records |}.

Definition handleStatusChange (studentId : string) (new_status : Js.value)
    (st : State) : State :=
  set_records (<[studentId := new_status]> (attendanceRecords st)) st.

Definition markAllPresent (st : State) : State :=
  set_records
    (foldl (fun records student => <[student_id student := Js.Str "present"]> records)
           ∅ (attendanceData st))
    st.

(** The request body built by [handleSaveAttendance]. *)
Definition save_payload (st : State) : BulkPayload :=
  {| class_id := selectedClass st;
     section_id := section_or_undefined (selectedSection st);
     date := selectedDate st;
     attendance_type := "daily";
     records :=
       (fun entry => {| bulk_student_id := entry.1; bulk_status := entry.2 |})
         <$> map_to_list (attendanceRecords st) |}.

Definition set_saving (b : bool) (st : State) : State :=
  {| selectedClass := selectedClass st;
     selectedSection := selectedSection st;
     selectedDate := selectedDate st;
     attendanceData := attendanceData st;
     loading := loading st;
     saving := b;
     attendanceRecords := attendanceRecords st |}.

Definition handleSaveAttendance (api : AttendanceAPI) (st : State)
  : State * list Effect :=
  let payload := save_payload st in
  match bulkMarkAttendance api payload with
  | Fulfilled _ =>
      let '(st', effects) := fetchAttendance api st in
      (set_saving false st',
       Posted payload :: ToastSuccess "Attendance saved successfully!" :: effects)
  | Rejected _ =>
      (set_saving false st,
       [Posted payload; ToastError "Failed to save attendance"])
  end.

(** [Object.values(attendanceRecords)] *)
Definition record_values (st : State) : list Js.value :=
  (map_to_list (attendanceRecords st)).*2.

(** [Object.values(attendanceRecords).filter(s => s === v).length] *)
Definition count_eq (v : Js.value) (values : list Js.value) : nat :=
  length (filter (fun s => s = v) values).

Record Summary := {
  total : nat;
  present : nat;
  absent : nat;
  late : nat;
  excused : nat;
}.

Definition summary (st : State) : Summary :=
  {| total := length (attendanceData st);
     present := count_eq (Js.Str "present") (record_values st);
     absent := count_eq (Js.Str "absent") (record_values st);
     late := count_eq (Js.Str "late") (record_values st);
     excused :=
       length (filter (fun s => s ∈ [Js.Str "excused"; Js.Str "medical"])
                      (record_values st)) |}.

(** Sample data: a class of three on a date where one student has been
    marked with a medical absence and the other two not at all. *)
Definition sample_rows : list StudentRow :=
  [{| student_id := "st-1"; status := Js.Str "medical" |};
   {| student_id := "st-2"; status := Js.Null |};
   {| student_id := "st-3"; status := Js.Undefined |}].

Definition sample_api : AttendanceAPI :=
  {| getClassAttendance := fun _ _ _ => Fulfilled sample_rows;
     bulkMarkAttendance := fun _ => Fulfilled tt |}.

Definition sample_state : State :=
  {| selectedClass := "class-1"; selectedSection := "";
     selectedDate := "2026-03-02"; attendanceData := []; loading := false;
     saving := false; attendanceRecords := ∅ |}.

(** The page once the sample class has been loaded. *)
Definition sample_loaded : State := (fetchAttendance sample_api sample_state).1.

End AttendancePage.

(** ** Parent and student portals: loaders and the figures they display *)
Module Portal.
Import Promise.

(** A child of a JSX element, as React receives it: a number, the text
    [n.toFixed(1)] of a number [n], or a literal text.  [null] and
    [undefined] produce no child.  How the engine prints a number is not
    modelled: the first two stand for the texts it produces. *)
Inductive Child :=
| CNum (n : Qc)
| CFixed1 (n : Qc)
| CText (s : string).

(** A numeric JSON field: [None] when it is null or missing. *)
Definition number := option Qc.

(** [x || d] for a numeric field: null, undefined and 0 give [d]. *)
Definition num_or (x : number) (d : Qc) : Qc :=
  match x with
  | Some n => if Qc_eq_bool n (Q2Qc 0) then d else n
  | None => d
  end.

(** The JSX expression [{x || 0}%] that the pages use for a percentage. *)
Definition percent_figure (x : number) : list Child :=
  [CNum (num_or x (Q2Qc 0)); CText "%"].

(** [{x?.toFixed(1)}] as a JSX child. *)
Definition toFixed1_child (x : number) : list Child :=
  match x with
  | Some n => [CFixed1 n]
  | None => []
  end.

Record AttendanceSummary := {
  attendance_percentage : number;
  present_days : number;
  absent_days : number;
  late_days : number;
  excused_days : number;
}.

(** The object literal [{}] used as a summary. *)
Definition empty_summary : AttendanceSummary :=
  {| attendance_percentage := None; present_days := None; absent_days := None;
     late_days := None; excused_days := None |}.

Record AttendanceEntry := {
  entry_date : string;
  entry_status : string;
}.

(** Body of the student attendance response. *)
Record AttendanceData := {
  records : list AttendanceEntry;
  summary : option AttendanceSummary;
}.

Record SubjectGrades := {
  subject_id : string;
  subject_name : string;
  average_percentage : number;
}.

(** Body of the grades responses. *)
Record GradesData := {
  subjects : list SubjectGrades;
}.

Record DashboardAttendance := {
  percentage : number;
}.

(** Body of the student dashboard response. *)
Record DashboardData := {
  student : option string;
  attendance : option DashboardAttendance;
}.

Inductive Effect :=
| ToastError (msg : string)
| ConsoleError (msg : string) (reason : string).

(** *** ChildrenPage.jsx *)

Record ChildrenState := {
  attendanceData : option AttendanceData;
  gradesData : option GradesData;
}.

Record ChildrenAPI := {
  getStudentAttendance : string -> string -> string -> settled AttendanceData;
  getStudentGrades : string -> settled GradesData;
}.

(** [fetchChildData(studentId)], with the two dates it derives from the
    clock passed in.  The result is the settlement of the promise the async
    function returns. *)
Definition fetchChildData (api : ChildrenAPI) (startDate endDate : string)
    (studentId : string) (st : ChildrenState)
  : ChildrenState * list Effect * settled unit :=
  match
    all2
      (catch (getStudentAttendance api studentId startDate endDate)
             (fun _ => {| records := []; summary := Some empty_summary |}))
      (catch (getStudentGrades api studentId)
             (fun _ => {| subjects := [] |}))
  with
  | Fulfilled (attendanceRes, gradesRes) =>
      ({| attendanceData := Some attendanceRes; gradesData := Some gradesRes |},
       [], Fulfilled tt)
  | Rejected error =>
      (st, [ConsoleError "Failed to fetch child data:" error], Fulfilled tt)
  end.

(** The badge of a subject card: [{subject.average_percentage?.toFixed(1)}%] *)
Definition subject_badge (subject : SubjectGrades) : list Child :=
  toFixed1_child (average_percentage subject) ++ [CText "%"].

(** [<Progress value={subject.average_percentage || 0} />] *)
Definition subject_progress (subject : SubjectGrades) : Qc :=
  num_or (average_percentage subject) (Q2Qc 0).

(** *** StudentPortalPage *)

Record PortalState := {
  dashboardData : option DashboardData;
  portalGrades : option GradesData;
  loading : bool;
}.

Record PortalAPI := {
  getStudentDashboard : settled DashboardData;
  getMyGrades : settled GradesData;
}.

Definition fetchData (api : PortalAPI) (st : PortalState)
  : PortalState * list Effect * settled unit :=
  match
    all2 (getStudentDashboard api)
         (catch (getMyGrades api) (fun _ => {| subjects := [] |}))
  with
  | Fulfilled (dashRes, gradesRes) =>
      ({| dashboardData := Some dashRes; portalGrades := Some gradesRes;
          loading := false |},
       [], Fulfilled tt)
  | Rejected _ =>
      ({| dashboardData := dashboardData st; portalGrades := portalGrades st;
          loading := false |},
       [ToastError "Failed to load data"], Fulfilled tt)
  end.

(** Sample data: a back end that fails every read of a child's data. *)
Definition failing_children_api : ChildrenAPI :=
  {| getStudentAttendance := fun _ _ _ => Rejected "Network Error";
     getStudentGrades := fun _ => Rejected "Network Error" |}.

Definition nothing_loaded : ChildrenState :=
  {| attendanceData := None; gradesData := None |}.

(** The parent page after [fetchChildData] ran against the failing back
    end. *)
Definition after_failed_fetch : ChildrenState :=
  (fetchChildData failing_children_api "2025-12-01" "2026-03-02" "st-1"
     nothing_loaded).1.1.

(** Sample data: a subject without any valid graded assignment. *)
Definition ungraded_subject : SubjectGrades :=
  {| subject_id := "sub-1"; subject_name := "Mathematics";
     average_percentage := None |}.

End Portal.

(** ** api.js: the shared axios client and its interceptors *)
Module ApiClient.
Import Promise.

Record Config := {
  url : string;
  authorization : option string;
  _retry : bool;
}.

(** A rejected request; [status] is [error.response?.status], [None] when
    no response was received. *)
Record HttpError := {
  status : option nat;
  config : Config;
}.

Inductive Outcome :=
| Response (body : string)
| Failed (error : HttpError).

Inductive Event :=
| Sent (c : Config)
| RefreshPosted (refresh_token : string)
| SetItem (key value : string)
| RemoveItem (key : string)
| Redirected (to : string).

(** The browser state the client reads and writes, with the log of what it
    did. *)
Record World := {
  localStorage : gmap string string;
  location : string;
  log : list Event;
}.

Definition emit (e : Event) (w : World) : World :=
  {| localStorage := localStorage w; location := location w;
     log := log w ++ [e] |}.

Definition setItem (key value : string) (w : World) : World :=
  {| localStorage := <[key := value]> (localStorage w); location := location w;
     log := log w ++ [SetItem key value] |}.

Definition removeItem (key : string) (w : World) : World :=
  {| localStorage := delete key (localStorage w); location := location w;
     log := log w ++ [RemoveItem key] |}.

Definition redirect (to : string) (w : World) : World :=
  {| localStorage := localStorage w; location := to;
     log := log w ++ [Redirected to] |}.

(** [localStorage.getItem(key)] used as a condition: a missing entry and the
    empty string are falsy. *)
Definition getItem_truthy (key : string) (w : World) : option string :=
  match localStorage w !! key with
  | Some v => if String.eqb v "" then None else Some v
  | None => None
  end.

(** The request interceptor. *)
Definition request_interceptor (w : World) (c : Config) : Config :=
  match getItem_truthy "access_token" w with
  | Some token =>
      {| url := url c; authorization := Some ("Bearer " +:+ token);
         _retry := _retry c |}
  | None => c
  end.

Definition mark_retry (c : Config) : Config :=
  {| url := url c; authorization := authorization c; _retry := true |}.

Section Client.

(** The server behind the client, as a function of everything that happened
    so far.  A request gets [inr body] on success and [inl status] on
    failure ([None] when no response came back).  The refresh endpoint
    answers with the [access_token] field of its body, [None] when the body
    has no such field. *)
Variable backend : World -> Config -> option nat + string.
Variable refresh_endpoint : World -> string -> settled (option string).

(** [String(v)] of the [access_token] field handed to [setItem]. *)
Definition stored_token (t : option string) : string :=
  match t with Some s => s | None => "undefined" end.

(** [api(config)]: request interceptor, the request itself, then the
    response interceptor; the retry of the error handler is the recursive
    call.  [fuel] bounds the depth of that recursion. *)
Fixpoint api (fuel : nat) (c : Config) (w : World) : option (World * Outcome) :=
  match fuel with
  | O => None
  | S fuel' =>
      let sent := request_interceptor w c in
      let w1 := emit (Sent sent) w in
      match backend w1 sent with
      | inr body => Some (w1, Response body)
      | inl st =>
          let error := {| status := st; config := sent |} in
          let originalRequest := sent in
          if bool_decide (st = Some 401%nat) && negb (_retry originalRequest) then
            let originalRequest := mark_retry originalRequest in
            let error := {| status := st; config := originalRequest |} in
            match getItem_truthy "refresh_token" w1 with
            | Some refreshToken =>
                let w2 := emit (RefreshPosted refreshToken) w1 in
                match refresh_endpoint w2 refreshToken with
                | Fulfilled token =>
                    let w3 := setItem "access_token" (stored_token token) w2 in
                    api fuel' originalRequest w3
                | Rejected _ =>
                    let w3 := removeItem "access_token" w2 in
                    let w4 := removeItem "refresh_token" w3 in
                    let w5 := removeItem "user" w4 in
                    let w6 := redirect "/login" w5 in
                    Some (w6, Failed error)
                end
            | None => Some (w1, Failed error)
            end
          else Some (w1, Failed error)
      end
  end.

Definition is_refresh (e : Event) : bool :=
  match e with RefreshPosted _ => true | _ => false end.

Definition is_sent (e : Event) : bool :=
  match e with Sent _ => true | _ => false end.

Definition count_events (p : Event -> bool) (events : list Event) : nat :=
  length (List.filter p events).

End Client.

(** Sample data: a session whose tokens the server no longer accepts. *)
Definition expired_backend : World -> Config -> option nat + string :=
  fun _ _ => inl (Some 401%nat).

Definition refusing_refresh : World -> string -> settled (option string) :=
  fun _ _ => Rejected "Invalid refresh token".

Definition signed_in : World :=
  {| localStorage :=
       <["access_token" := "at-1"]>
         (<["refresh_token" := "rt-1"]> (<["user" := "u-7"]> ∅));
     location := "/attendance";
     log := [] |}.

Definition class_attendance_request : Config :=
  {| url := "/attendance/class/class-1"; authorization := None; _retry := false |}.

End ApiClient.

(** ** Application shell: Sidebar.js, MainLayout.js and the links between
    menu and routes *)
Module Shell.
Import Routes.

Record MenuItem := {
  label : string;
  path : string;
}.

(** [Sidebar.getMenuItems], without the icons. *)
Definition getMenuItems (st : AuthState) : list MenuItem :=
  let userType := user_type_of st in
  if bool_decide (userType = Some "school_admin")
     || bool_decide (userType = Some "super_admin")
     || bool_decide (userType = Some "principal") then
    [ {| label := "Dashboard"; path := "/dashboard" |};
      {| label := "School Setup"; path := "/school-setup" |};
      {| label := "Users"; path := "/users" |};
      {| label := "Students"; path := "/students" |};
      {| label := "Classes"; path := "/classes" |};
      {| label := "Subjects"; path := "/subjects" |};
      {| label := "Timetable"; path := "/timetable" |};
      {| label := "Attendance"; path := "/attendance" |};
      {| label := "Grades"; path := "/grades" |};
      {| label := "Calendar"; path := "/calendar" |};
      {| label := "Reports"; path := "/reports" |};
      {| label := "Settings"; path := "/settings" |} ]
  else if bool_decide (userType = Some "teacher") then
    [ {| label := "Dashboard"; path := "/dashboard" |};
      {| label := "My Classes"; path := "/my-classes" |};
      {| label := "Attendance"; path := "/attendance" |};
      {| label := "Assignments"; path := "/assignments" |};
      {| label := "Gradebook"; path := "/gradebook" |};
      {| label := "Schedule"; path := "/schedule" |};
      {| label := "Messages"; path := "/messages" |} ]
  else if bool_decide (userType = Some "parent") then
    [ {| label := "Dashboard"; path := "/dashboard" |};
      {| label := "My Children"; path := "/my-children" |};
      {| label := "Grades"; path := "/grades" |};
      {| label := "Attendance"; path := "/attendance" |};
      {| label := "Assignments"; path := "/assignments" |};
      {| label := "Calendar"; path := "/calendar" |};
      {| label := "Messages"; path := "/messages" |};
      {| label := "Leave Request"; path := "/leave-request" |} ]
  else if bool_decide (userType = Some "student") then
    [ {| label := "Dashboard"; path := "/dashboard" |};
      {| label := "My Grades"; path := "/grades" |};
      {| label := "Attendance"; path := "/attendance" |};
      {| label := "Assignments"; path := "/assignments" |};
      {| label := "Schedule"; path := "/schedule" |};
      {| label := "Calendar"; path := "/calendar" |} ]
  else [].

(** The pieces of a path between its slashes. *)
Fixpoint split_slash (p : string) (current : string) : list string :=
  match p with
  | EmptyString => [current]
  | String c rest =>
      if String.eqb (String c EmptyString) "/" then current :: split_slash rest ""
      else split_slash rest (current +:+ String c EmptyString)
  end.

(** The segments a location path is matched by: its non-empty pieces. *)
Definition segments (p : string) : list string :=
  filter (fun s => s <> "") (split_slash p "").

(** [MainLayout]: its own loading and authentication checks, then the
    layout around the outlet. *)
Definition MainLayout (st : AuthState) (outlet : View) : View :=
  if loading st then Spinner
  else if negb (isAuthenticated st) then NavigateTo "/login"
  else LayoutView outlet.

(** Rendering with [MainLayout]'s own checks in place of the bare layout. *)
Fixpoint render_checked (st : AuthState) (e : Element) : View :=
  match e with
  | EProtected allowed c => ProtectedRoute st allowed (render_checked st c)
  | EPublic c => PublicRoute st (render_checked st c)
  | ENavigate to => NavigateTo to
  | EPage name => PageView name
  | EPlaceholder title => PlaceholderView title
  | ELayout outlet => MainLayout st (render_checked st outlet)
  end.

(** What following a link of the sidebar renders. *)
Definition follow (st : AuthState) (item : MenuItem) : View :=
  render_checked st (AppRoutes (segments (path item))).

(** The public page a location leads to, if any: the login page at /login
    and the registration page at /register, matched like every route
    without regard to letter case. *)
Definition public_page (p : list string) : option string :=
  match p with
  | [segment] =>
      if matches segment "login" then Some "LoginPage"
      else if matches segment "register" then Some "RegisterPage"
      else None
  | _ => None
  end.

(** A view an authenticated visitor can be given inside the layout: a
    page, a placeholder or the redirect to the dashboard. *)
Definition inside (v : View) : Prop :=
  match v with
  | PageView _ | PlaceholderView _ => True
  | NavigateTo to => to = "/dashboard"
  | _ => False
  end.

(** A view that shows content inside the layout, as opposed to a spinner or
    a redirect. *)
Definition shows_content (v : View) : bool :=
  match v with
  | LayoutView (PageView _) | LayoutView (PlaceholderView _) => true
  | _ => false
  end.

(** Sample data: a visitor without a session, a teacher, a principal and a
    parent, each signed in after the provider mounted. *)
Definition visitor : AuthState := mount_effect None None None initial.

Definition signed_in_as (type : string) : AuthState :=
  login {| id := "u-1"; user_type := Some type |} visitor.

End Shell.

(** ** AuthContext.js: the provider's operations on the browser storage *)
Module AuthStore.
Import Promise Routes.

(** [localStorage.getItem(key)] used as a condition: a missing entry and the
    empty string are falsy. *)
Definition truthy_item (key : string) (storage : gmap string string)
  : option string :=
  match storage !! key with
  | Some v => if String.eqb v "" then None else Some v
  | None => None
  end.

(** Body of the login response. *)
Record LoginResponse := {
  access_token : string;
  refresh_token : string;
  user_data : AuthUser;
}.

(** Body of the registration response. *)
Record RegisterResponse := {
  reg_access_token : string;
  reg_refresh_token : string;
  reg_user : AuthUser;
  reg_school : string;
}.

(** What [JSON.parse] makes of a stored text: it throws on a text that is
    not JSON, and otherwise gives a value, which is the stored object or
    something else ([null], a number, a text). *)
Inductive parsed (A : Type) : Type :=
| Throws
| NotObject
| Object (a : A).
Arguments Throws {A}.
Arguments NotObject {A}.
Arguments Object {A} a.

(** The value handed to the state setter; only an object counts as a user
    or a school for the rest of the application. *)
Definition parsed_value {A : Type} (p : parsed A) : option A :=
  match p with
  | Object a => Some a
  | _ => None
  end.

Definition setUser (u : option AuthUser) (st : AuthState) : AuthState :=
  {| user := u; school := school st; loading := loading st |}.

Definition setSchool (s : option string) (st : AuthState) : AuthState :=
  {| user := user st; school := s; loading := loading st |}.

Definition setLoading (b : bool) (st : AuthState) : AuthState :=
  {| user := user st; school := school st; loading := b |}.

Section Json.

(** [JSON.stringify] and [JSON.parse] on the two objects the provider
    stores.  Nothing is assumed on the texts found in the storage:
    [JSON.parse] may throw on them. *)
Variable stringify_user : AuthUser -> string.
Variable parse_user : string -> parsed AuthUser.
Variable stringify_school : string -> string.
Variable parse_school : string -> parsed string.

(** The mount effect, reading the storage.  A [JSON.parse] that throws ends
    the effect there: what was set before stays set, and
    [setLoading(false)] is not reached. *)
Definition mount (storage : gmap string string) (st : AuthState) : AuthState :=
  match truthy_item "user" storage, truthy_item "access_token" storage with
  | Some storedUser, Some _ =>
      match parse_user storedUser with
      | Throws => st
      | u =>
          let st1 := setUser (parsed_value u) st in
          match truthy_item "school" storage with
          | Some storedSchool =>
              match parse_school storedSchool with
              | Throws => st1
              | s => setLoading false (setSchool (parsed_value s) st1)
              end
          | None => setLoading false st1
          end
      end
  | _, _ => setLoading false st
  end.

(** [login(email, password)], given how the login request settled.  A
    failed request propagates to the caller and changes nothing. *)
Definition login_op (response : settled LoginResponse)
    (st : AuthState) (storage : gmap string string)
  : AuthState * gmap string string * settled AuthUser :=
  match response with
  | Fulfilled r =>
      (login (user_data r) st,
       <["user" := stringify_user (user_data r)]>
         (<["refresh_token" := refresh_token r]>
            (<["access_token" := access_token r]> storage)),
       Fulfilled (user_data r))
  | Rejected reason => (st, storage, Rejected reason)
  end.

(** [register(data)], given how the registration request settled. *)
Definition register_op (response : settled RegisterResponse)
    (st : AuthState) (storage : gmap string string)
  : AuthState * gmap string string * settled (AuthUser * string) :=
  match response with
  | Fulfilled r =>
      (register (reg_user r) (reg_school r) st,
       <["school" := stringify_school (reg_school r)]>
         (<["user" := stringify_user (reg_user r)]>
            (<["refresh_token" := reg_refresh_token r]>
               (<["access_token" := reg_access_token r]> storage))),
       Fulfilled (reg_user r, reg_school r))
  | Rejected reason => (st, storage, Rejected reason)
  end.

(** [logout()] *)
Definition logout_op (st : AuthState) (storage : gmap string string)
  : AuthState * gmap string string :=
  (logout st,
   delete "school"
     (delete "user" (delete "refresh_token" (delete "access_token" storage)))).

(** [updateUser(userData)] *)
Definition updateUser_op (userData : AuthUser) (st : AuthState)
    (storage : gmap string string) : AuthState * gmap string string :=
  (updateUser userData st, <["user" := stringify_user userData]> storage).

(** [updateSchool(schoolData)] *)
Definition updateSchool_op (schoolData : string) (st : AuthState)
    (storage : gmap string string) : AuthState * gmap string string :=
  (updateSchool schoolData st, <["school" := stringify_school schoolData]> storage).

End Json.

(** Sample data: a codec for one user, and the answer to that user's
    login. *)
Definition teacher_ada : AuthUser := {| id := "u-ada"; user_type := Some "teacher" |}.

Definition ada_text : string := "ada".

Definition ada_login : LoginResponse :=
  {| access_token := "at-9"; refresh_token := "rt-9"; user_data := teacher_ada |}.

End AuthStore.

(** ** Further sample servers for the API client *)
Module ClientSamples.
Import Promise ApiClient.

(** A server that rejects the first attempt with 401 and accepts the
    retried one. *)
Definition renewing_backend : World -> Config -> option nat + string :=
  fun _ c => if _retry c then inr "ok" else inl (Some 401%nat).

Definition granting_refresh : World -> string -> settled (option string) :=
  fun _ _ => Fulfilled (Some "at-2").

(** A server that fails every request with status 500. *)
Definition broken_backend : World -> Config -> option nat + string :=
  fun _ _ => inl (Some 500%nat).

End ClientSamples.

(** ** AttendancePage.jsx: a marking session *)
Module AttendanceSession.
Import Promise AttendancePage.

(** The state the component starts in; [today] is the date the clock
    gives. *)
Definition initial (today : string) : State :=
  {| selectedClass := ""; selectedSection := ""; selectedDate := today;
     attendanceData := []; loading := false; saving := false;
     attendanceRecords := ∅ |}.

Definition setSelectedClass (classId : string) (st : State) : State :=
  {| selectedClass := classId; selectedSection := selectedSection st;
     selectedDate := selectedDate st; attendanceData := attendanceData st;
     loading := loading st; saving := saving st;
     attendanceRecords := attendanceRecords st |}.

Definition setSelectedSection (sectionId : string) (st : State) : State :=
  {| selectedClass := selectedClass st; selectedSection := sectionId;
     selectedDate := selectedDate st; attendanceData := attendanceData st;
     loading := loading st; saving := saving st;
     attendanceRecords := attendanceRecords st |}.

Definition setSelectedDate (day : string) (st : State) : State :=
  {| selectedClass := selectedClass st; selectedSection := selectedSection st;
     selectedDate := day; attendanceData := attendanceData st;
     loading := loading st; saving := saving st;
     attendanceRecords := attendanceRecords st |}.

(** The value of a row's status select:
    [attendanceRecords[student.student_id] || 'present']. *)
Definition displayed_status (st : State) (student : StudentRow) : Js.value :=
  Js.or (default Js.Undefined (attendanceRecords st !! student_id student))
        (Js.Str "present").

(** The [disabled] attribute of the save button. *)
Definition save_disabled (st : State) : bool :=
  saving st || (length (attendanceData st) =? 0)%nat.

(** What the server may answer to a class attendance request: any rows
    ([any_rows]), or one row per student whose status is missing or one of
    the five known ones ([clean_rows]). *)
Definition any_rows (data : list StudentRow) : Prop := True.

Definition clean_rows (data : list StudentRow) : Prop :=
  NoDup (student_id <$> data)
  /\ Forall (fun row => Js.truthy (status row) = false
                        \/ status row ∈ ATTENDANCE_STATUSES) data.

(** The states a marking session goes through: selections, loads, status
    changes made in the rows of listed students, mark-all-present and saves,
    in any order, against servers whose answers satisfy [ok]. *)
Inductive session (ok : list StudentRow -> Prop) : State -> Prop :=
| session_initial today : session ok (initial today)
| session_class classId st :
    session ok st -> session ok (setSelectedClass classId st)
| session_section sectionId st :
    session ok st -> session ok (setSelectedSection sectionId st)
| session_date day st :
    session ok st -> session ok (setSelectedDate day st)
| session_fetch api st :
    session ok st ->
    (forall data,
        getClassAttendance api (selectedClass st) (selectedDate st)
          (section_or_undefined (selectedSection st)) = Fulfilled data ->
        ok data) ->
    session ok (fetchAttendance api st).1
| session_change student new_status st :
    session ok st -> student ∈ attendanceData st ->
    new_status ∈ ATTENDANCE_STATUSES ->
    session ok (handleStatusChange (student_id student) new_status st)
| session_mark_all st :
    session ok st -> session ok (markAllPresent st)
| session_save api st :
    session ok st ->
    (forall data,
        getClassAttendance api (selectedClass st) (selectedDate st)
          (section_or_undefined (selectedSection st)) = Fulfilled data ->
        ok data) ->
    session ok (handleSaveAttendance api st).1.

(** What a session keeps true of its marking state: the marks are those of
    the listed students, and none of them is falsy. *)
Definition tracked (st : State) : Prop :=
  dom (attendanceRecords st) = list_to_set (student_id <$> attendanceData st)
  /\ map_Forall (fun _ v => Js.truthy v = true) (attendanceRecords st).

(** What a session against a clean server keeps true in addition: one row
    per student, and every mark one of the five statuses. *)
Definition clean (st : State) : Prop :=
  NoDup (student_id <$> attendanceData st)
  /\ dom (attendanceRecords st) = list_to_set (student_id <$> attendanceData st)
  /\ map_Forall (fun _ v => v ∈ ATTENDANCE_STATUSES) (attendanceRecords st).

(** Sample data: the sample class loaded, then the third student marked
    late. *)
Definition third_marked_late : State :=
  handleStatusChange "st-3" (Js.Str "late") sample_loaded.

(** Sample data: a server that has lost its connection. *)
Definition offline_api : AttendanceAPI :=
  {| getClassAttendance := fun _ _ _ => Rejected "Network Error";
     bulkMarkAttendance := fun _ => Rejected "Network Error" |}.

(** Sample data: a server that stores what is posted and lists it back. *)
Definition echo_api : AttendanceAPI :=
  {| getClassAttendance := fun _ _ _ =>
       Fulfilled [{| student_id := "st-1"; status := Js.Str "medical" |};
                  {| student_id := "st-2"; status := Js.Str "present" |};
                  {| student_id := "st-3"; status := Js.Str "late" |}];
     bulkMarkAttendance := fun _ => Fulfilled tt |}.

End AttendanceSession.

(** ** What the portal pages show *)
Module Pages.
Import Promise Portal.

(** *** ChildrenPage.jsx *)

Record Child := {
  child_id : string;
  first_name : string;
}.

(** The part of the page state that [fetchChildren] sets. *)
Record ChildList := {
  children : list Child;
  selectedChild : option Child;
  children_loading : bool;
}.

(** [useState([])], [useState(null)], [useState(true)] *)
Definition no_children_yet : ChildList :=
  {| children := []; selectedChild := None; children_loading := true |}.

Definition fetchChildren (response : settled (list Child)) (st : ChildList)
  : ChildList * list Effect :=
  match response with
  | Fulfilled data =>
      ({| children := data;
          selectedChild :=
            match data with
            | first :: _ => Some first
            | [] => selectedChild st
            end;
          children_loading := false |}, [])
  | Rejected _ =>
      ({| children := children st; selectedChild := selectedChild st;
          children_loading := false |},
       [ToastError "Failed to load children"])
  end.

(** What the page returns: the spinner, the notice that no child is linked,
    or the page proper, with or without the child selector and with the
    selected child's card and tabs. *)
Inductive ChildrenView :=
| ChildrenSpinner
| NoChildrenLinked
| ChildrenShown (selector : bool) (detail : option Child).

Definition children_view (st : ChildList) : ChildrenView :=
  if children_loading st then ChildrenSpinner
  else if (length (children st) =? 0)%nat then NoChildrenLinked
  else ChildrenShown (1 <? length (children st))%nat (selectedChild st).

(** The grades tab: the subject cards, or the notice. *)
Inductive GradesTab :=
| SubjectCards (subjects : list SubjectGrades)
| NoGradesYet.

(** [gradesData?.subjects?.length > 0 ? ... : ...] *)
Definition grades_tab (gradesData : option GradesData) : GradesTab :=
  match gradesData with
  | Some g =>
      match subjects g with
      | [] => NoGradesYet
      | listed => SubjectCards listed
      end
  | None => NoGradesYet
  end.

(** The list of the attendance tab: the first ten records, or the notice. *)
Inductive AttendanceList :=
| RecordRows (rows : list AttendanceEntry)
| NoRecordsYet.

(** [attendanceData?.records?.length > 0 ? records.slice(0, 10) ... : ...] *)
Definition attendance_list (attendanceData : option AttendanceData)
  : AttendanceList :=
  match attendanceData with
  | Some a =>
      match records a with
      | [] => NoRecordsYet
      | listed => RecordRows (take 10 listed)
      end
  | None => NoRecordsYet
  end.

(** The four counters of the attendance tab:
    [attendanceData?.summary?.present_days || 0] and its three siblings. *)
Definition day_counters (attendanceData : option AttendanceData) : list Qc :=
  let field (f : AttendanceSummary -> number) :=
    num_or (a ← attendanceData; s ← summary a; f s) (Q2Qc 0) in
  [field present_days; field absent_days; field late_days; field excused_days].

(** *** StudentPortalPage *)

(** [useState(null)], [useState(null)], [useState(true)] *)
Definition portal_initial : PortalState :=
  {| dashboardData := None; portalGrades := None; loading := true |}.

Inductive PortalView :=
| PortalSpinner
| ProfileNotFound
| PortalShown (student_name : string).

(** [const student = dashboardData?.student], then the page's branches. *)
Definition portal_view (st : PortalState) : PortalView :=
  if loading st then PortalSpinner
  else
    match d ← dashboardData st; student d with
    | Some name => PortalShown name
    | None => ProfileNotFound
    end.

(** *** DashboardPage *)

Inductive DashboardRequest :=
| GetAdminDashboard
| GetCurrentSchool
| GetTeacherDashboard
| GetParentDashboard
| GetStudentDashboard.

(** The requests [fetchDashboardData] issues for a user type. *)
Definition dashboard_requests (userType : option string) : list DashboardRequest :=
  if bool_decide (userType = Some "school_admin")
     || bool_decide (userType = Some "super_admin")
     || bool_decide (userType = Some "principal")
  then [GetAdminDashboard; GetCurrentSchool]
  else if bool_decide (userType = Some "teacher") then [GetTeacherDashboard]
  else if bool_decide (userType = Some "parent") then [GetParentDashboard]
  else if bool_decide (userType = Some "student") then [GetStudentDashboard]
  else [].

Inductive DashboardView :=
| AdminDashboard
| TeacherDashboard
| ParentDashboard
| StudentDashboard
| UnknownUserType.

(** The component [DashboardPage] returns once loading is over. *)
Definition dashboard_view (userType : option string) : DashboardView :=
  if bool_decide (userType = Some "school_admin")
     || bool_decide (userType = Some "super_admin")
     || bool_decide (userType = Some "principal")
  then AdminDashboard
  else if bool_decide (userType = Some "teacher") then TeacherDashboard
  else if bool_decide (userType = Some "parent") then ParentDashboard
  else if bool_decide (userType = Some "student") then StudentDashboard
  else UnknownUserType.

(** The request that feeds each dashboard component. *)
Definition feeds (v : DashboardView) : list DashboardRequest :=
  match v with
  | AdminDashboard => [GetAdminDashboard; GetCurrentSchool]
  | TeacherDashboard => [GetTeacherDashboard]
  | ParentDashboard => [GetParentDashboard]
  | StudentDashboard => [GetStudentDashboard]
  | UnknownUserType => []
  end.

(** *** UsersPage: pagination *)

Record Pagination := {
  page : Z;
  limit : Z;
  total : Z;
}.

(** [useState({ page: 1, limit: 20, total: 0 })] *)
Definition first_page : Pagination := {| page := 1; limit := 20; total := 0 |}.










End Pages.

(** ** The figures the portal pages display, where the pages display them *)
Module Figures.
Import Promise Portal Pages.

(** The badges of the subject cards a grades list renders. *)
Definition badges (gradesData : option GradesData) : list (list Portal.Child) :=
  match grades_tab gradesData with
  | SubjectCards listed => map subject_badge listed
  | NoGradesYet => []
  end.

(** [ParentChildrenPage]: the attendance figure sits in the card of the
    selected child, which the page reaches only past its loading and
    no-children returns and with a child selected. *)
Definition children_attendance_stat (linked : ChildList)
    (attendanceData : option AttendanceData) : option (list Portal.Child) :=
  match children_view linked with
  | ChildrenShown _ (Some _) =>
      Some (percent_figure
              (a ← attendanceData; s ← summary a; attendance_percentage s))
  | _ => None
  end.

(** [ParentChildrenPage]: the badges of the grades tab, the tab open by
    default, under the same conditions. *)
Definition children_subject_badges (linked : ChildList)
    (gradesData : option GradesData) : option (list (list Portal.Child)) :=
  match children_view linked with
  | ChildrenShown _ (Some _) => Some (badges gradesData)
  | _ => None
  end.

(** [StudentPortalPage]: the page returns the spinner while loading and the
    "Student profile not found." notice without a student; only past both
    does it render the attendance figure. *)
Definition portal_attendance_stat (st : PortalState) : option (list Portal.Child) :=
  match portal_view st with
  | PortalShown _ =>
      Some (percent_figure
              (d ← dashboardData st; a ← attendance d; percentage a))
  | _ => None
  end.

(** [StudentPortalPage]: the badges of the grades card, past the same two
    returns. *)
Definition portal_subject_badges (st : PortalState) : option (list (list Portal.Child)) :=
  match portal_view st with
  | PortalShown _ => Some (badges (portalGrades st))
  | _ => None
  end.

(** [DashboardPage]: past its spinner the page hands its data to
    [StudentDashboard] for a student, and that component renders the figure
    whatever the data. *)
Definition dashboard_attendance_stat (loading : bool) (userType : option string)
    (data : option DashboardData) : option (list Portal.Child) :=
  if loading then None
  else
    match dashboard_view userType with
    | StudentDashboard =>
        Some (percent_figure (d ← data; a ← attendance d; percentage a))
    | _ => None
    end.

(** Sample data: a parent with one linked child, whose data could not be
    fetched. *)
Definition ada : Child := {| child_id := "st-1"; first_name := "Ada" |}.

Definition one_child : ChildList :=
  (fetchChildren (Fulfilled [ada]) no_children_yet).1.

(** Sample data: a student whose dashboard carries no attendance and whose
    one subject has no average yet. *)
Definition fresh_student_api : PortalAPI :=
  {| getStudentDashboard := Fulfilled {| student := Some "Ada"; attendance := None |};
     getMyGrades := Fulfilled {| subjects := [ungraded_subject] |} |}.

Definition fresh_student_portal : PortalState :=
  (fetchData fresh_student_api portal_initial).1.1.

End Figures.

(** * Properties *)

(** ** Authorization guard *)

(** C1: whenever the target resource's tenant id differs from the acting
    user's [school_id], [authorize] denies with [CrossTenantAccess], whatever
    the role, the action, the ownership relation and the contents of the
    Role-Permission Table, and the tenant check is the only thing consulted:
    no table or ownership lookup precedes the decision. *)
Theorem C1_cross_tenant_denied_first
    (table : Guard.PermissionTable) (user : Guard.User) (action : Guard.Action)
    (resourceType : Guard.ResourceType) (resourceTenantId : Guard.TenantId)
    (ownershipCheck : Guard.User -> bool) :
  resourceTenantId <> Guard.school_id user ->
  Guard.authorize table user action resourceType resourceTenantId ownershipCheck
    = Guard.Deny Guard.CrossTenantAccess
  /\ Guard.authorize_traced table user action resourceType resourceTenantId
       ownershipCheck
     = (Guard.Deny Guard.CrossTenantAccess, [Guard.TenantCheck]).
Proof.
  intros Hne.
  assert (Guard.authorize_traced table user action resourceType resourceTenantId
            ownershipCheck
          = (Guard.Deny Guard.CrossTenantAccess, [Guard.TenantCheck])) as Htr.
  { unfold Guard.authorize_traced. rewrite bool_decide_eq_false_2; done. }
  split; [| exact Htr].
  unfold Guard.authorize. by rewrite Htr.
Qed.

(** A teacher of school S1 who holds "attendance bulk" asks to bulk-mark in
    school S2. *)
Lemma C1_cross_tenant_witness :
  let table : Guard.PermissionTable :=
    fun _ => [("attendance", Guard.bulk); ("attendance", Guard.read)] in
  let t := {| Guard.user_id := "T"; Guard.school_id := "S1";
              Guard.role := Guard.teacher |} in
  Guard.authorize table t Guard.bulk "attendance" "S2" (fun _ => true)
    = Guard.Deny Guard.CrossTenantAccess
  /\ Guard.authorize_traced table t Guard.bulk "attendance" "S2" (fun _ => true)
     = (Guard.Deny Guard.CrossTenantAccess, [Guard.TenantCheck]).
Proof.
  intros table t.
  apply (C1_cross_tenant_denied_first table t Guard.bulk "attendance" "S2").
  simpl. discriminate.
Defined.

(** ** Route guard *)

Lemma mounted_not_loading (st : Routes.AuthState) :
  Routes.mounted st -> Routes.loading st = false.
Proof.
  induction 1 as [su ss tok | | | | |]; simpl; try assumption.
  unfold Routes.mount_effect. destruct su, tok; reflexivity.
Qed.

(** An authenticated state is never a loading one. *)
Lemma reachable_authenticated_not_loading (st : Routes.AuthState) :
  Routes.reachable st -> Routes.isAuthenticated st = true ->
  Routes.loading st = false.
Proof.
  intros [| st' Hm] Hauth.
  - discriminate Hauth.
  - by apply mounted_not_loading.
Qed.

Lemma includes_false (types : list string) (t : option string) :
  (forall s, s ∈ types -> t <> Some s) -> Routes.includes types t = false.
Proof.
  intros Hnot. destruct t as [s |]; simpl; [| reflexivity].
  apply bool_decide_eq_false_2. intros Hin. by apply (Hnot s).
Qed.

Lemma ProtectedRoute_redirects (st : Routes.AuthState) (u : Routes.AuthUser)
    (types : list string) (children : Routes.View) :
  Routes.loading st = false -> Routes.user st = Some u ->
  (forall s, s ∈ types -> Routes.user_type u <> Some s) ->
  Routes.ProtectedRoute st (Some types) children = Routes.NavigateTo "/dashboard".
Proof.
  intros Hl Hu Hnot. unfold Routes.ProtectedRoute, Routes.isAuthenticated,
    Routes.user_type_of.
  rewrite Hl, Hu. simpl. by rewrite includes_false.
Qed.

(** C2: for an authenticated user whose [user_type] is none of school_admin,
    super_admin and principal, [ProtectedRoute] with that list returns the
    redirect to /dashboard whatever page it guards, and so do the
    school-setup, users, classes and subjects routes inside the layout. *)
Theorem C2_admin_routes_redirect_other_types
    (st : Routes.AuthState) (u : Routes.AuthUser) (page : Routes.View) :
  Routes.reachable st ->
  Routes.user st = Some u ->
  (forall s, s ∈ Routes.adminTypes -> Routes.user_type u <> Some s) ->
  Routes.ProtectedRoute st (Some Routes.adminTypes) page
    = Routes.NavigateTo "/dashboard"
  /\ Forall (fun segment =>
               Routes.render st (Routes.AppRoutes [segment])
               = Routes.LayoutView (Routes.NavigateTo "/dashboard"))
            ["school-setup"; "users"; "classes"; "subjects"].
Proof.
  intros Hreach Hu Hnot.
  assert (Routes.loading st = false) as Hl.
  { apply reachable_authenticated_not_loading; [done |].
    unfold Routes.isAuthenticated. by rewrite Hu. }
  split; [by eapply ProtectedRoute_redirects |].
  assert (forall name,
             Routes.render st
               (Routes.EProtected None
                  (Routes.ELayout
                     (Routes.EProtected (Some Routes.adminTypes) (Routes.EPage name))))
             = Routes.LayoutView (Routes.NavigateTo "/dashboard")) as Hguarded.
  { intros name. cbn [Routes.render].
    rewrite (ProtectedRoute_redirects st u) by done.
    unfold Routes.ProtectedRoute, Routes.isAuthenticated.
    by rewrite Hl, Hu. }
  repeat constructor; apply Hguarded.
Qed.

(** ** Aggregation service *)

Lemma round1_spec (x : Qc) :
  Aggregation.rounded_to_one_decimal x (Aggregation.round1 x).
Proof.
  unfold Aggregation.rounded_to_one_decimal, Aggregation.round1.
  split; [eexists; reflexivity |].
  set (f := Qfloor _).
  assert (inject_Z f <= this x * 10 + (1 # 2))%Q as Hlo.
  { subst f. eapply Qle_trans; [apply Qfloor_le |].
    simpl. rewrite !Qred_correct. lra. }
  assert (this x * 10 + (1 # 2) < inject_Z (f + 1))%Q as Hhi.
  { subst f. eapply Qle_lt_trans; [| apply Qlt_floor].
    simpl. rewrite !Qred_correct. lra. }
  rewrite inject_Z_plus in Hhi. change (inject_Z 1) with 1%Q in Hhi.
  unfold Qcle, Qcminus, Qcplus, Qcopp; simpl; rewrite !Qred_correct.
  generalize dependent (inject_Z f). intros q Hlo Hhi.
  generalize dependent (this x). intros y Hlo Hhi.
  unfold Qdiv. change (/ 10)%Q with (1 # 10)%Q.
  split; lra.
Qed.

(** C3: over the records of the range, the summary's percentage is
    [present_count / total_marked_days * 100] rounded to one decimal, the
    denominator being the number of records (days without a record do not
    enter it); with no marked day it is 0, the computation being total.  Ten
    marked days with 7 present, 2 absent and 1 late give 70.0, also when the
    range holds 21 more days without a record. *)
Theorem C3_attendance_percentage
    (records : list Aggregation.AttendanceRecord) (start_date end_date : Z) :
  let marked := Aggregation.marked_in records start_date end_date in
  match length marked with
  | O =>
      Aggregation.percentage
        (Aggregation.summarizeAttendance records start_date end_date) = Q2Qc 0
  | S _ =>
      Aggregation.rounded_to_one_decimal
        (Aggregation.Qc_of_nat (Aggregation.count_status Aggregation.Present marked)
         / Aggregation.Qc_of_nat (length marked) * Q2Qc 100)%Qc
        (Aggregation.percentage
           (Aggregation.summarizeAttendance records start_date end_date))
  end
  /\ Aggregation.percentage
       (Aggregation.summarizeAttendance [] start_date end_date) = Q2Qc 0
  /\ Aggregation.percentage
       (Aggregation.summarizeAttendance Aggregation.ten_marked_days 1 10) = Q2Qc 70
  /\ Aggregation.percentage
       (Aggregation.summarizeAttendance Aggregation.ten_marked_days 1 31) = Q2Qc 70.
Proof.
  intros marked. split; [| split; [| split]].
  - unfold Aggregation.summarizeAttendance. cbn [Aggregation.percentage].
    fold marked. destruct (length marked); [reflexivity | apply round1_spec].
  - reflexivity.
  - apply Qc_is_canon. vm_compute. reflexivity.
  - apply Qc_is_canon. vm_compute. reflexivity.
Qed.

Lemma Qc_sum_valid (f : Aggregation.Grade -> Qc) (grades : list Aggregation.Grade) :
  Aggregation.Qc_sum (map f (Aggregation.valid_grades grades))
  = Aggregation.Qc_sum
      (map (fun g => if decide (Aggregation.max_score g = Q2Qc 0) then Q2Qc 0 else f g)
           grades).
Proof.
  unfold Aggregation.valid_grades.
  induction grades as [| g grades IH]; [reflexivity |].
  rewrite filter_cons. simpl.
  destruct (decide (Aggregation.max_score g = Q2Qc 0)) as [Hz | Hnz].
  - rewrite decide_False by (intros Hn; by apply Hn).
    rewrite IH. symmetry. apply Qcplus_0_l.
  - rewrite decide_True by done. simpl. by rewrite IH.
Qed.

Lemma valid_grades_nil (grades : list Aggregation.Grade) :
  Aggregation.valid_grades grades = []
  <-> Forall (fun g => Aggregation.max_score g = Q2Qc 0) grades.
Proof.
  unfold Aggregation.valid_grades.
  induction grades as [| g grades IH]; [by split |].
  rewrite filter_cons.
  destruct (decide (Aggregation.max_score g <> Q2Qc 0)) as [Hnz | Hz].
  - split; [discriminate |]. intros HF. by inversion HF.
  - rewrite IH. apply dec_stable in Hz. split.
    + by constructor.
    + intros HF. by inversion HF.
Qed.

Lemma valid_grades_idemp (grades : list Aggregation.Grade) :
  Aggregation.valid_grades (Aggregation.valid_grades grades)
  = Aggregation.valid_grades grades.
Proof.
  unfold Aggregation.valid_grades.
  induction grades as [| g grades IH]; [reflexivity |].
  rewrite filter_cons.
  destruct (decide (Aggregation.max_score g <> Q2Qc 0)) as [Hnz | Hz]; [| exact IH].
  rewrite filter_cons_True by done. by rewrite IH.
Qed.

(** C4: an entry with [max_score = 0] adds nothing to the numerator and
    nothing to the denominator of
    [Σ(score_i / max_score_i * weight_i) / Σ(weight_i) * 100], so the
    average of a list is that of its valid entries; the result is null
    exactly when every entry has [max_score = 0], in particular for the
    empty list; and [{8, 10, 1}, {0, 0, 1}] averages to 80. *)
Theorem C4_average_grades (grades : list Aggregation.Grade) :
  Aggregation.averageGrades grades =
    (if decide (Forall (fun g => Aggregation.max_score g = Q2Qc 0) grades)
     then None
     else Some
         (Aggregation.Qc_sum
            (map (fun g => if decide (Aggregation.max_score g = Q2Qc 0) then Q2Qc 0
                           else Aggregation.score g / Aggregation.max_score g
                                * Aggregation.weight g) grades)
          / Aggregation.Qc_sum
              (map (fun g => if decide (Aggregation.max_score g = Q2Qc 0) then Q2Qc 0
                             else Aggregation.weight g) grades)
          * Q2Qc 100)%Qc)
  /\ Aggregation.averageGrades grades
     = Aggregation.averageGrades (Aggregation.valid_grades grades)
  /\ Aggregation.averageGrades [] = None
  /\ Aggregation.averageGrades Aggregation.one_valid_one_invalid = Some (Q2Qc 80).
Proof.
  split; [| split; [| split]].
  - unfold Aggregation.averageGrades.
    destruct (decide (Forall _ grades)) as [Hall | Hsome].
    + apply valid_grades_nil in Hall. by rewrite Hall.
    + rewrite <- valid_grades_nil in Hsome.
      rewrite <- !Qc_sum_valid.
      destruct (Aggregation.valid_grades grades); [done | reflexivity].
  - unfold Aggregation.averageGrades. by rewrite valid_grades_idemp.
  - reflexivity.
  - unfold Aggregation.averageGrades.
    assert (Aggregation.valid_grades Aggregation.one_valid_one_invalid
            = [{| Aggregation.score := Q2Qc 8; Aggregation.max_score := Q2Qc 10;
                  Aggregation.weight := Q2Qc 1 |}]) as ->.
    { unfold Aggregation.valid_grades, Aggregation.one_valid_one_invalid.
      rewrite filter_cons_True by (by intros [=]).
      rewrite filter_cons_False by (by intros H; apply H). reflexivity. }
    f_equal. apply Qc_is_canon. reflexivity.
Qed.

(** ** Attendance page *)

Lemma count_two (a b : Js.value) (values : list Js.value) :
  a <> b ->
  length (filter (fun s => s ∈ [a; b]) values)
  = AttendancePage.count_eq a values + AttendancePage.count_eq b values.
Proof.
  intros Hab. unfold AttendancePage.count_eq.
  induction values as [| v values IH]; [reflexivity |].
  rewrite !filter_cons.
  destruct (decide (v = a)) as [-> | Hna].
  - rewrite decide_True by (apply elem_of_cons; by left).
    rewrite (decide_False (P := a = b)) by done.
    simpl. by rewrite IH.
  - destruct (decide (v = b)) as [-> | Hnb].
    + rewrite decide_True by (apply elem_of_cons; right; apply elem_of_cons; by left).
      simpl. rewrite IH. lia.
    + rewrite decide_False; [exact IH |].
      intros [? | [? | Hnil%elem_of_nil]%elem_of_cons]%elem_of_cons; done.
Qed.

Lemma counts_partition (values : list Js.value) :
  Forall (fun v => v ∈ AttendancePage.ATTENDANCE_STATUSES) values ->
  AttendancePage.count_eq (Js.Str "present") values
  + AttendancePage.count_eq (Js.Str "absent") values
  + AttendancePage.count_eq (Js.Str "late") values
  + length (filter (fun s => s ∈ [Js.Str "excused"; Js.Str "medical"]) values)
  = length values.
Proof.
  intros Hall. rewrite count_two by discriminate. unfold AttendancePage.count_eq.
  induction Hall as [| v values Hv _ IH]; [reflexivity |].
  rewrite !filter_cons. unfold AttendancePage.ATTENDANCE_STATUSES in Hv.
  repeat (apply elem_of_cons in Hv as [-> | Hv];
          [repeat (first [rewrite decide_True by done
                         | rewrite decide_False by discriminate]);
           simpl; lia |]).
  by apply elem_of_nil in Hv.
Qed.

(** C5 (as the page computes it): the summary has the fields [total],
    [present], [absent], [late] and [excused] and no percentage; [present],
    [absent] and [late] count the records with exactly that status, while
    [excused] counts the records whose status is excused together with
    those whose status is medical; [total] is the number of listed rows. *)
Theorem C5_summary_counts (st : AttendancePage.State) :
  let values := AttendancePage.record_values st in
  AttendancePage.summary st =
    {| AttendancePage.total := length (AttendancePage.attendanceData st);
       AttendancePage.present := AttendancePage.count_eq (Js.Str "present") values;
       AttendancePage.absent := AttendancePage.count_eq (Js.Str "absent") values;
       AttendancePage.late := AttendancePage.count_eq (Js.Str "late") values;
       AttendancePage.excused :=
         AttendancePage.count_eq (Js.Str "excused") values
         + AttendancePage.count_eq (Js.Str "medical") values |}.
Proof.
  intros values. unfold AttendancePage.summary. fold values.
  by rewrite count_two.
Qed.

(** C5 as stated fails: once the sample class is loaded, its one medical
    record is counted under [excused], although no record carries the status
    excused. *)
Lemma C5_medical_counted_under_excused :
  AttendancePage.count_eq (Js.Str "excused")
    (AttendancePage.record_values AttendancePage.sample_loaded) = 0%nat
  /\ AttendancePage.count_eq (Js.Str "medical")
       (AttendancePage.record_values AttendancePage.sample_loaded) = 1%nat
  /\ AttendancePage.excused (AttendancePage.summary AttendancePage.sample_loaded)
     = 1%nat
  /\ AttendancePage.excused (AttendancePage.summary AttendancePage.sample_loaded)
     <> AttendancePage.count_eq (Js.Str "excused")
          (AttendancePage.record_values AttendancePage.sample_loaded).
Proof.
  split; [by vm_compute |]. split; [by vm_compute |]. split; [by vm_compute |].
  vm_compute. discriminate.
Qed.



Lemma foldl_insert_other (value_of : AttendancePage.StudentRow -> Js.value)
    (data : list AttendancePage.StudentRow) (acc : gmap string Js.value)
    (k : string) :
  k ∉ AttendancePage.student_id <$> data ->
  foldl (fun records student =>
           <[AttendancePage.student_id student := value_of student]> records)
        acc data !! k = acc !! k.
Proof.
  revert acc. induction data as [| x data IH]; intros acc Hk; [reflexivity |].
  rewrite fmap_cons, not_elem_of_cons in Hk. destruct Hk as [Hne Hk].
  simpl. rewrite IH by done. by rewrite lookup_insert_ne.
Qed.

(** With one row per student, the marking state holds for each listed
    student [status || 'present'] of that student's row. *)
Lemma initial_records_lookup (data : list AttendancePage.StudentRow)
    (s : AttendancePage.StudentRow) :
  NoDup (AttendancePage.student_id <$> data) -> s ∈ data ->
  AttendancePage.initial_records data !! AttendancePage.student_id s
  = Some (Js.or (AttendancePage.status s) (Js.Str "present")).
Proof.
  unfold AttendancePage.initial_records. generalize (∅ : gmap string Js.value).
  induction data as [| x data IH]; intros acc Hnd Hin.
  - by apply elem_of_nil in Hin.
  - rewrite fmap_cons in Hnd. apply NoDup_cons in Hnd as [Hx Hnd].
    apply elem_of_cons in Hin as [-> | Hin]; simpl.
    + rewrite (foldl_insert_other
                 (fun student => Js.or (AttendancePage.status student) (Js.Str "present"))
                 data _ (AttendancePage.student_id x) Hx).
      by rewrite lookup_insert_eq.
    + by apply IH.
Qed.

(** Every entry of the marking state comes from a listed row. *)
Lemma initial_records_values (data : list AttendancePage.StudentRow)
    (k : string) (v : Js.value) :
  AttendancePage.initial_records data !! k = Some v ->
  exists s, s ∈ data /\ AttendancePage.student_id s = k
            /\ v = Js.or (AttendancePage.status s) (Js.Str "present").
Proof.
  unfold AttendancePage.initial_records.
  assert (forall acc : gmap string Js.value,
            foldl (fun records student =>
                     <[AttendancePage.student_id student :=
                         Js.or (AttendancePage.status student) (Js.Str "present")]>
                       records)
                  acc data !! k = Some v ->
            acc !! k = Some v \/
            exists s, s ∈ data /\ AttendancePage.student_id s = k
                      /\ v = Js.or (AttendancePage.status s) (Js.Str "present"))
    as Hgen.
  { induction data as [| x data IH]; intros acc Hl; [by left |].
    simpl in Hl. apply IH in Hl as [Hl | (s & Hs & Hk & Hv)].
    - destruct (decide (AttendancePage.student_id x = k)) as [<- | Hne].
      + rewrite lookup_insert_eq in Hl. injection Hl as <-.
        right. exists x. split; [apply elem_of_cons; by left | done].
      + rewrite lookup_insert_ne in Hl by done. by left.
    - right. exists s. split; [apply elem_of_cons; by right | done]. }
  intros Hl. apply Hgen in Hl as [Hl | Hl]; [| done].
  by rewrite lookup_empty in Hl.
Qed.

(** C8: after a successful load of the class attendance (one row per
    student), every listed student whose row has no status stands as
    'present' in the marking state, and the request that
    [handleSaveAttendance] posts from that state, for the selected class and
    date, carries that student as present; when no row has a status, every
    record of the request is a 'present' one. *)
Theorem C8_unmarked_students_saved_present
    (api : AttendancePage.AttendanceAPI) (st : AttendancePage.State)
    (data : list AttendancePage.StudentRow) (s : AttendancePage.StudentRow) :
  AttendancePage.getClassAttendance api (AttendancePage.selectedClass st)
    (AttendancePage.selectedDate st)
    (AttendancePage.section_or_undefined (AttendancePage.selectedSection st))
  = Promise.Fulfilled data ->
  NoDup (AttendancePage.student_id <$> data) ->
  s ∈ data ->
  Js.truthy (AttendancePage.status s) = false ->
  let loaded := (AttendancePage.fetchAttendance api st).1 in
  let payload := AttendancePage.save_payload loaded in
  AttendancePage.attendanceData loaded = data
  /\ AttendancePage.attendanceRecords loaded !! AttendancePage.student_id s
     = Some (Js.Str "present")
  /\ {| AttendancePage.bulk_student_id := AttendancePage.student_id s;
        AttendancePage.bulk_status := Js.Str "present" |}
       ∈ AttendancePage.records payload
  /\ AttendancePage.class_id payload = AttendancePage.selectedClass st
  /\ AttendancePage.date payload = AttendancePage.selectedDate st
  /\ (exists rest,
         (AttendancePage.handleSaveAttendance api loaded).2
         = AttendancePage.Posted payload :: rest)
  /\ (Forall (fun row => Js.truthy (AttendancePage.status row) = false) data ->
      Forall (fun r => AttendancePage.bulk_status r = Js.Str "present")
             (AttendancePage.records payload)).
Proof.
  intros Hget Hnd Hin Hfalsy loaded payload. subst payload.
  assert (loaded =
          {| AttendancePage.selectedClass := AttendancePage.selectedClass st;
             AttendancePage.selectedSection := AttendancePage.selectedSection st;
             AttendancePage.selectedDate := AttendancePage.selectedDate st;
             AttendancePage.attendanceData := data;
             AttendancePage.loading := false;
             AttendancePage.saving := AttendancePage.saving st;
             AttendancePage.attendanceRecords :=
               AttendancePage.initial_records data |}) as Hloaded.
  { subst loaded. unfold AttendancePage.fetchAttendance. by rewrite Hget. }
  clearbody loaded. subst loaded.
  set (loaded := AttendancePage.Build_State _ _ _ _ _ _ _).
  assert (AttendancePage.attendanceRecords loaded !! AttendancePage.student_id s
          = Some (Js.Str "present")) as Hrec.
  { simpl. rewrite initial_records_lookup by done.
    unfold Js.or. by rewrite Hfalsy. }
  split; [reflexivity |]. split; [exact Hrec |].
  split.
  { unfold AttendancePage.save_payload. cbn [AttendancePage.records].
    apply list_elem_of_fmap. exists (AttendancePage.student_id s, Js.Str "present").
    split; [reflexivity |]. by apply elem_of_map_to_list. }
  split; [reflexivity |]. split; [reflexivity |].
  split.
  { unfold AttendancePage.handleSaveAttendance.
    destruct (AttendancePage.bulkMarkAttendance api
                (AttendancePage.save_payload loaded)); [| by eexists].
    destruct (AttendancePage.fetchAttendance api loaded). by eexists. }
  intros Hall. unfold AttendancePage.save_payload. cbn [AttendancePage.records].
  apply Forall_fmap, Forall_forall. intros [k v] Hkv. simpl.
  apply elem_of_map_to_list in Hkv. simpl in Hkv.
  apply initial_records_values in Hkv as (row & Hrow & _ & ->).
  rewrite Forall_forall in Hall. unfold Js.or. by rewrite (Hall row Hrow).
Qed.

(** The second student of the sample class, whose status is null. *)
Lemma C8_unmarked_students_witness :
  let s := {| AttendancePage.student_id := "st-2";
              AttendancePage.status := Js.Null |} in
  let loaded :=
    (AttendancePage.fetchAttendance AttendancePage.sample_api
       AttendancePage.sample_state).1 in
  let payload := AttendancePage.save_payload loaded in
  AttendancePage.attendanceData loaded = AttendancePage.sample_rows
  /\ AttendancePage.attendanceRecords loaded !! AttendancePage.student_id s
     = Some (Js.Str "present")
  /\ {| AttendancePage.bulk_student_id := AttendancePage.student_id s;
        AttendancePage.bulk_status := Js.Str "present" |}
       ∈ AttendancePage.records payload
  /\ AttendancePage.class_id payload = "class-1"
  /\ AttendancePage.date payload = "2026-03-02"
  /\ (exists rest,
         (AttendancePage.handleSaveAttendance AttendancePage.sample_api loaded).2
         = AttendancePage.Posted payload :: rest)
  /\ (Forall (fun row => Js.truthy (AttendancePage.status row) = false)
             AttendancePage.sample_rows ->
      Forall (fun r => AttendancePage.bulk_status r = Js.Str "present")
             (AttendancePage.records payload)).
Proof.
  intros s.
  apply (C8_unmarked_students_saved_present AttendancePage.sample_api
           AttendancePage.sample_state AttendancePage.sample_rows s).
  - reflexivity.
  - apply (bool_decide_unpack _). by vm_compute.
  - unfold AttendancePage.sample_rows.
    apply elem_of_cons. right. apply elem_of_cons. left. reflexivity.
  - reflexivity.
Defined.

(** A teacher who signed in after the provider mounted. *)
Lemma C2_admin_routes_witness :
  let u := {| Routes.id := "u-7"; Routes.user_type := Some "teacher" |} in
  let st := Routes.login u (Routes.mount_effect None None None Routes.initial) in
  Routes.ProtectedRoute st (Some Routes.adminTypes) (Routes.PageView "UsersPage")
    = Routes.NavigateTo "/dashboard"
  /\ Forall (fun segment =>
               Routes.render st (Routes.AppRoutes [segment])
               = Routes.LayoutView (Routes.NavigateTo "/dashboard"))
            ["school-setup"; "users"; "classes"; "subjects"].
Proof.
  intros u st.
  apply (C2_admin_routes_redirect_other_types st u (Routes.PageView "UsersPage")).
  - apply Routes.reachable_mounted, Routes.mounted_login, Routes.mounted_effect.
  - reflexivity.
  - intros t Ht [= <-]. revert Ht.
    apply (bool_decide_eq_false_1 ("teacher" ∈ Routes.adminTypes)). reflexivity.
Defined.

(** ** Portals *)

(** C6 (as the pages render it): where a page shows a student's figures
    (the card of the selected child on the parent page, the student portal
    once a student profile is there, the student dashboard) an absent
    attendance percentage is rendered as the number 0 followed by "%"; the
    badge of a listed subject whose average is absent renders "%" alone,
    and its progress bar gets 0.  Nothing else is rendered in place of the
    figure. *)
Theorem C6_absent_figures_as_rendered
    (children : Pages.ChildList) (selector : bool) (child : Pages.Child)
    (attendanceData : option Portal.AttendanceData)
    (grades : Portal.GradesData) (subject : Portal.SubjectGrades)
    (st : Portal.PortalState) (name : string)
    (data : option Portal.DashboardData) :
  Pages.children_view children = Pages.ChildrenShown selector (Some child) ->
  (a ← attendanceData; s ← Portal.summary a; Portal.attendance_percentage s) = None ->
  subject ∈ Portal.subjects grades ->
  Portal.average_percentage subject = None ->
  Pages.portal_view st = Pages.PortalShown name ->
  (d ← Portal.dashboardData st; a ← Portal.attendance d; Portal.percentage a) = None ->
  (d ← data; a ← Portal.attendance d; Portal.percentage a) = None ->
  Figures.children_attendance_stat children attendanceData
    = Some [Portal.CNum (Q2Qc 0); Portal.CText "%"]
  /\ Figures.portal_attendance_stat st
     = Some [Portal.CNum (Q2Qc 0); Portal.CText "%"]
  /\ Figures.dashboard_attendance_stat false (Some "student") data
     = Some [Portal.CNum (Q2Qc 0); Portal.CText "%"]
  /\ (exists shown,
         Figures.children_subject_badges children (Some grades) = Some shown
         /\ [Portal.CText "%"] ∈ shown)
  /\ Portal.subject_badge subject = [Portal.CText "%"]
  /\ Portal.subject_progress subject = Q2Qc 0.
Proof.
  intros Hshown Hatt Hlisted Havg Hportal Hdash Hdata.
  assert (Portal.subject_badge subject = [Portal.CText "%"]) as Hbadge.
  { unfold Portal.subject_badge. by rewrite Havg. }
  unfold Figures.children_attendance_stat, Figures.portal_attendance_stat,
    Figures.dashboard_attendance_stat, Figures.children_subject_badges.
  rewrite Hshown, Hportal, Hatt, Hdash, Hdata.
  split; [reflexivity |]. split; [reflexivity |]. split; [reflexivity |].
  split; [| split; [exact Hbadge |]].
  - eexists. split; [reflexivity |].
    unfold Figures.badges, Pages.grades_tab. cbn [mbind option_bind].
    destruct (Portal.subjects grades) as [| first rest].
    + by apply elem_of_nil in Hlisted.
    + rewrite <- Hbadge.
      apply list_elem_of_In, in_map. by apply list_elem_of_In.
  - unfold Portal.subject_progress. by rewrite Havg.
Qed.

Lemma C6_absent_figures_witness :
  Figures.children_attendance_stat Figures.one_child
    (Portal.attendanceData Portal.after_failed_fetch)
    = Some [Portal.CNum (Q2Qc 0); Portal.CText "%"]
  /\ Figures.portal_attendance_stat Figures.fresh_student_portal
     = Some [Portal.CNum (Q2Qc 0); Portal.CText "%"]
  /\ Figures.dashboard_attendance_stat false (Some "student") None
     = Some [Portal.CNum (Q2Qc 0); Portal.CText "%"]
  /\ (exists shown,
         Figures.children_subject_badges Figures.one_child
           (Some {| Portal.subjects := [Portal.ungraded_subject] |}) = Some shown
         /\ [Portal.CText "%"] ∈ shown)
  /\ Portal.subject_badge Portal.ungraded_subject = [Portal.CText "%"]
  /\ Portal.subject_progress Portal.ungraded_subject = Q2Qc 0.
Proof.
  apply (C6_absent_figures_as_rendered Figures.one_child false Figures.ada
           (Portal.attendanceData Portal.after_failed_fetch)
           {| Portal.subjects := [Portal.ungraded_subject] |}
           Portal.ungraded_subject Figures.fresh_student_portal "Ada" None).
  - reflexivity.
  - reflexivity.
  - apply elem_of_cons. by left.
  - reflexivity.
  - reflexivity.
  - reflexivity.
  - reflexivity.
Defined.

(** C6 as stated fails.  A parent with one linked child whose attendance
    could not be fetched holds a summary without a percentage, and the
    child's card shows 0 followed by "%"; a student whose dashboard carries
    no attendance sees the same on the portal, and so does a student whose
    dashboard data is not there on the dashboard. *)
Lemma C6_absent_percentage_shown_as_zero :
  (a ← Portal.attendanceData Portal.after_failed_fetch;
   s ← Portal.summary a; Portal.attendance_percentage s) = None
  /\ Figures.children_attendance_stat Figures.one_child
       (Portal.attendanceData Portal.after_failed_fetch)
     = Some [Portal.CNum (Q2Qc 0); Portal.CText "%"]
  /\ (d ← Portal.dashboardData Figures.fresh_student_portal;
      a ← Portal.attendance d; Portal.percentage a) = None
  /\ Figures.portal_attendance_stat Figures.fresh_student_portal
     = Some [Portal.CNum (Q2Qc 0); Portal.CText "%"]
  /\ Figures.dashboard_attendance_stat false (Some "student") None
     = Some [Portal.CNum (Q2Qc 0); Portal.CText "%"].
Proof. repeat split. Qed.

(** C7 (as the loaders behave): neither loader lets a failed fetch reach its
    caller.  [fetchChildData] always completes normally and stores, for a
    failed attendance fetch, the empty record set with an empty summary and,
    for a failed grades fetch, an empty subject list.  [fetchData] always
    completes normally as well; it stores an empty subject list for a failed
    grades fetch and, when the dashboard fetch fails, keeps its data as it
    was and raises the toast "Failed to load data". *)
Theorem C7_loaders_absorb_failures
    (capi : Portal.ChildrenAPI) (startDate endDate studentId : string)
    (cst : Portal.ChildrenState)
    (papi : Portal.PortalAPI) (pst : Portal.PortalState) :
  Portal.fetchChildData capi startDate endDate studentId cst =
    ({| Portal.attendanceData :=
          Some match Portal.getStudentAttendance capi studentId startDate endDate with
               | Promise.Fulfilled a => a
               | Promise.Rejected _ =>
                   {| Portal.records := [];
                      Portal.summary := Some Portal.empty_summary |}
               end;
        Portal.gradesData :=
          Some match Portal.getStudentGrades capi studentId with
               | Promise.Fulfilled g => g
               | Promise.Rejected _ => {| Portal.subjects := [] |}
               end |},
     [], Promise.Fulfilled tt)
  /\ Portal.fetchData papi pst =
     match Portal.getStudentDashboard papi with
     | Promise.Fulfilled d =>
         ({| Portal.dashboardData := Some d;
             Portal.portalGrades :=
               Some match Portal.getMyGrades papi with
                    | Promise.Fulfilled g => g
                    | Promise.Rejected _ => {| Portal.subjects := [] |}
                    end;
             Portal.loading := false |},
          [], Promise.Fulfilled tt)
     | Promise.Rejected _ =>
         ({| Portal.dashboardData := Portal.dashboardData pst;
             Portal.portalGrades := Portal.portalGrades pst;
             Portal.loading := false |},
          [Portal.ToastError "Failed to load data"], Promise.Fulfilled tt)
     end.
Proof.
  split.
  - unfold Portal.fetchChildData.
    destruct (Portal.getStudentAttendance capi studentId startDate endDate);
      destruct (Portal.getStudentGrades capi studentId); reflexivity.
  - unfold Portal.fetchData.
    destruct (Portal.getStudentDashboard papi);
      destruct (Portal.getMyGrades papi); reflexivity.
Qed.

(** C7 as stated fails: with a back end whose reads fail with "Network
    Error", [fetchChildData] completes normally instead of failing with that
    error, and leaves an empty record set and an empty subject list in the
    state. *)
Lemma C7_failed_fetch_replaced :
  Portal.getStudentAttendance Portal.failing_children_api "st-1" "2025-12-01"
    "2026-03-02" = Promise.Rejected "Network Error"
  /\ Portal.fetchChildData Portal.failing_children_api "2025-12-01" "2026-03-02"
       "st-1" Portal.nothing_loaded
     = ({| Portal.attendanceData :=
             Some {| Portal.records := [];
                     Portal.summary := Some Portal.empty_summary |};
           Portal.gradesData := Some {| Portal.subjects := [] |} |},
        [], Promise.Fulfilled tt)
  /\ (Portal.fetchChildData Portal.failing_children_api "2025-12-01" "2026-03-02"
        "st-1" Portal.nothing_loaded).2
     <> Promise.Rejected "Network Error".
Proof. repeat split. discriminate. Qed.

(** ** Shared API client *)

Section ClientProofs.
Import ApiClient.

Variable backend : World -> Config -> option nat + string.
Variable refresh_endpoint : World -> string -> Promise.settled (option string).

(** The request interceptor only touches the Authorization header. *)
Lemma request_interceptor_retry (w : World) (c : Config) :
  _retry (request_interceptor w c) = _retry c.
Proof. unfold request_interceptor. by destruct (getItem_truthy _ w). Qed.

(** A request already marked as retried is sent once and never refreshed. *)
Lemma api_retried (fuel : nat) (c : Config) (w : World) :
  _retry c = true ->
  exists out,
    api backend refresh_endpoint (S fuel) c w
    = Some (emit (Sent (request_interceptor w c)) w, out).
Proof.
  intros Hretry. simpl.
  destruct (backend _ _) as [st | body]; [| by eexists].
  rewrite request_interceptor_retry, Hretry, andb_false_r. by eexists.
Qed.

Ltac client_log :=
  split; [intros; reflexivity |];
  split; [simpl; by rewrite <- ?app_assoc |];
  split; vm_compute; lia.

(** C9: a request issued through the client settles within one retry:
    whatever the server answers, the client posts at most one token refresh
    and sends the request at most twice, the second time with [_retry] set.
    When the first answer is a 401 for a request not yet retried, a refresh
    token is stored and the refresh fails, the client removes
    [access_token], [refresh_token] and [user] from the storage, then
    redirects to /login, and the request fails. *)
Theorem C9_single_refresh_and_cleanup (c : Config) (w : World) :
  (exists w' out new,
      (forall fuel, api backend refresh_endpoint (2 + fuel) c w = Some (w', out))
      /\ log w' = (log w ++ new)%list
      /\ (count_events is_refresh new <= 1)%nat
      /\ (count_events is_sent new <= 2)%nat)
  /\ (forall refreshToken reason,
        let sent := request_interceptor w c in
        let w1 := emit (Sent sent) w in
        backend w1 sent = inl (Some 401%nat) ->
        _retry c = false ->
        getItem_truthy "refresh_token" w1 = Some refreshToken ->
        refresh_endpoint (emit (RefreshPosted refreshToken) w1) refreshToken
        = Promise.Rejected reason ->
        exists w' error,
          api backend refresh_endpoint 2 c w = Some (w', Failed error)
          /\ localStorage w'
             = delete "user" (delete "refresh_token"
                                (delete "access_token" (localStorage w)))
          /\ location w' = "/login"
          /\ log w'
             = (log w ++ [Sent sent; RefreshPosted refreshToken;
                          RemoveItem "access_token"; RemoveItem "refresh_token";
                          RemoveItem "user"; Redirected "/login"])%list).
Proof.
  split.
  - cbn [api Nat.add].
    set (sent := request_interceptor w c). set (w1 := emit (Sent sent) w).
    destruct (backend w1 sent) as [st | body].
    2:{ exists w1, (Response body), [Sent sent]. by client_log. }
    destruct (bool_decide (st = Some 401%nat) && negb (_retry sent)) eqn:Hcond.
    2:{ eexists w1, _, [Sent sent]. by client_log. }
    destruct (getItem_truthy "refresh_token" w1) as [rt |].
    2:{ eexists w1, _, [Sent sent]. by client_log. }
    set (w2 := emit (RefreshPosted rt) w1).
    destruct (refresh_endpoint w2 rt) as [token | reason].
    + set (w3 := setItem "access_token" (stored_token token) w2).
      set (again := request_interceptor w3 (mark_retry sent)).
      assert (_retry again = true) as Hagain.
      { subst again. by rewrite request_interceptor_retry. }
      destruct (backend (emit (Sent again) w3) again) as [st' | body'].
      * rewrite Hagain. cbn [negb]. rewrite andb_false_r.
        eexists _, _, [Sent sent; RefreshPosted rt; SetItem "access_token" _;
                       Sent again].
        by client_log.
      * eexists _, _, [Sent sent; RefreshPosted rt; SetItem "access_token" _;
                       Sent again].
        by client_log.
    + eexists _, _, [Sent sent; RefreshPosted rt; RemoveItem "access_token";
                     RemoveItem "refresh_token"; RemoveItem "user";
                     Redirected "/login"].
      by client_log.
  - intros rt reason sent w1 H401 Hretry Hrt Hrefresh.
    cbn [api]. fold sent. fold w1. rewrite H401.
    subst sent. rewrite request_interceptor_retry, Hretry.
    rewrite bool_decide_eq_true_2 by done. cbn [andb negb].
    rewrite Hrt, Hrefresh.
    eexists _, _. split; [reflexivity |].
    repeat split. simpl. by rewrite <- !app_assoc.
Qed.

End ClientProofs.

(** A signed-in session whose access token has expired and whose refresh
    token is refused: the storage ends up without the three entries and the
    browser at /login. *)
Lemma C9_single_refresh_witness :
  exists w' error,
    ApiClient.api ApiClient.expired_backend ApiClient.refusing_refresh 2
      ApiClient.class_attendance_request ApiClient.signed_in
    = Some (w', ApiClient.Failed error)
    /\ ApiClient.localStorage w'
       = delete "user" (delete "refresh_token"
                          (delete "access_token"
                             (ApiClient.localStorage ApiClient.signed_in)))
    /\ ApiClient.location w' = "/login"
    /\ ApiClient.log w'
       = [ApiClient.Sent
            {| ApiClient.url := "/attendance/class/class-1";
               ApiClient.authorization := Some "Bearer at-1";
               ApiClient._retry := false |};
          ApiClient.RefreshPosted "rt-1";
          ApiClient.RemoveItem "access_token"; ApiClient.RemoveItem "refresh_token";
          ApiClient.RemoveItem "user"; ApiClient.Redirected "/login"].
Proof.
  apply (proj2 (C9_single_refresh_and_cleanup ApiClient.expired_backend
                  ApiClient.refusing_refresh ApiClient.class_attendance_request
                  ApiClient.signed_in)
           "rt-1" "Invalid refresh token").
  - reflexivity.
  - reflexivity.
  - by vm_compute.
  - reflexivity.
Defined.

(** ** Application shell *)

Section ShellProofs.
Import Routes Shell.

(** Every location is served either by one of the two public pages or from
    inside the layout route. *)
Lemma AppRoutes_shape (p : list string) :
  match public_page p with
  | Some name => AppRoutes p = EPublic (EPage name)
  | None =>
      exists inner, AppRoutes p = EProtected None (ELayout inner)
                    /\ (inner = ENavigate "/dashboard"
                        \/ exists s, p = [s] /\ inner = layout_child s)
  end.
Proof.
  destruct p as [| s [| s' rest]]; unfold public_page, AppRoutes.
  - eexists. split; [reflexivity | by left].
  - destruct (matches s "login"); [reflexivity |].
    destruct (matches s "register"); [reflexivity |].
    eexists. split; [reflexivity |]. right. by eexists.
  - eexists. split; [reflexivity | by left].
Qed.

(** A child route is a page, a placeholder, the fallback redirect, or one
    guard around a page or a placeholder. *)
Lemma layout_child_cases (s : string) :
  (exists name, layout_child s = EPage name)
  \/ (exists title, layout_child s = EPlaceholder title)
  \/ layout_child s = ENavigate "/dashboard"
  \/ (exists types name, layout_child s = EProtected (Some types) (EPage name))
  \/ (exists types title,
         layout_child s = EProtected (Some types) (EPlaceholder title)).
Proof.
  unfold layout_child.
  repeat (match goal with
          | |- context [if matches ?a ?b then _ else _] =>
              destruct (matches a b)
          end; [eauto 10 |]).
  eauto 10.
Qed.

Lemma render_checked_layout_child (st : AuthState) (s : string) :
  render_checked st (layout_child s) = render st (layout_child s).
Proof.
  destruct (layout_child_cases s)
    as [[? ->] | [[? ->] | [-> | [(? & ? & ->) | (? & ? & ->)]]]]; reflexivity.
Qed.

Lemma render_checked_AppRoutes (st : AuthState) (p : list string) :
  render_checked st (AppRoutes p) = render st (AppRoutes p).
Proof.
  pose proof (AppRoutes_shape p) as Hshape.
  destruct (public_page p) as [name |]; [by rewrite Hshape |].
  destruct Hshape as (inner & -> & Hinner).
  assert (render_checked st inner = render st inner) as Hin.
  { destruct Hinner as [-> | (s & _ & ->)]; [reflexivity |].
    apply render_checked_layout_child. }
  cbn [render_checked render]. rewrite Hin.
  unfold ProtectedRoute, MainLayout.
  destruct (loading st); [reflexivity |].
  destruct (isAuthenticated st); reflexivity.
Qed.

(** [MainLayout]'s own loading and authentication checks never decide
    anything: under the guard of the layout route it renders as the bare
    layout does, so at every location and in every authentication state the
    route tree renders the same with and without those checks. *)
Theorem MainLayout_checks_redundant (st : AuthState) (p : list string)
    (outlet : View) :
  ProtectedRoute st None (MainLayout st outlet)
    = ProtectedRoute st None (LayoutView outlet)
  /\ render_checked st (AppRoutes p) = render st (AppRoutes p).
Proof.
  split; [| apply render_checked_AppRoutes].
  unfold ProtectedRoute, MainLayout.
  destruct (loading st); [reflexivity |].
  destruct (isAuthenticated st); reflexivity.
Qed.

(** Once the provider has mounted, a visitor without a user is shown the
    login page at /login and the registration page at /register, in
    whatever letter case the location is written, and is redirected to
    /login from every other location. *)
Theorem unauthenticated_to_login (st : AuthState) (p : list string) :
  mounted st -> user st = None ->
  render st (AppRoutes p) =
    match public_page p with
    | Some name => PageView name
    | None => NavigateTo "/login"
    end.
Proof.
  intros Hm Hu. pose proof (mounted_not_loading st Hm) as Hl.
  pose proof (AppRoutes_shape p) as Hshape.
  destruct (public_page p) as [name |].
  - rewrite Hshape. simpl. unfold PublicRoute, isAuthenticated. by rewrite Hl, Hu.
  - destruct Hshape as (inner & -> & _).
    simpl. unfold ProtectedRoute, isAuthenticated. by rewrite Hl, Hu.
Qed.

Lemma unauthenticated_to_login_witness :
  render visitor (AppRoutes ["attendance"]) = NavigateTo "/login"
  /\ render visitor (AppRoutes ["LOGIN"]) = PageView "LoginPage".
Proof.
  split.
  - apply (unauthenticated_to_login visitor ["attendance"]).
    + apply mounted_effect.
    + reflexivity.
  - apply (unauthenticated_to_login visitor ["LOGIN"]).
    + apply mounted_effect.
    + reflexivity.
Defined.

(** A signed-in user is sent from /login and /register, in whatever letter
    case, straight to the dashboard, and at every other location stays
    inside the layout: a page, a placeholder or the redirect to /dashboard,
    never a spinner and never /login. *)
Theorem authenticated_stays_inside (st : AuthState) (u : AuthUser)
    (p : list string) :
  mounted st -> user st = Some u ->
  match public_page p with
  | Some _ => render st (AppRoutes p) = NavigateTo "/dashboard"
  | None => exists v, render st (AppRoutes p) = LayoutView v /\ inside v
  end.
Proof.
  intros Hm Hu. pose proof (mounted_not_loading st Hm) as Hl.
  pose proof (AppRoutes_shape p) as Hshape.
  destruct (public_page p) as [name |].
  - rewrite Hshape. simpl. unfold PublicRoute, isAuthenticated. by rewrite Hl, Hu.
  - destruct Hshape as (inner & -> & Hinner). cbn [render].
    unfold ProtectedRoute at 1. unfold isAuthenticated. rewrite Hl, Hu. cbn [negb].
    eexists. split; [reflexivity |].
    destruct Hinner as [-> | (s & _ & ->)]; [reflexivity |].
    destruct (layout_child_cases s)
      as [[? ->] | [[? ->] | [-> | [(? & ? & ->) | (? & ? & ->)]]]];
      cbn [render]; try exact I; try reflexivity.
    all: unfold ProtectedRoute, isAuthenticated; rewrite Hl, Hu; cbn [negb];
      destruct (includes _ _); cbn [negb]; try exact I; reflexivity.
Qed.

Lemma authenticated_stays_inside_witness :
  render (signed_in_as "teacher") (AppRoutes ["Login"]) = NavigateTo "/dashboard"
  /\ exists v, render (signed_in_as "teacher") (AppRoutes ["Users"]) = LayoutView v
               /\ inside v.
Proof.
  split.
  - apply (authenticated_stays_inside (signed_in_as "teacher")
             {| id := "u-1"; user_type := Some "teacher" |} ["Login"]).
    + apply mounted_login, mounted_effect.
    + reflexivity.
  - apply (authenticated_stays_inside (signed_in_as "teacher")
             {| id := "u-1"; user_type := Some "teacher" |} ["Users"]).
    + apply mounted_login, mounted_effect.
    + reflexivity.
Defined.

(** A signed-in school_admin, super_admin or principal is shown the
    school-setup, users, classes and subjects pages at their routes. *)
Theorem admin_types_reach_admin_pages (st : AuthState) (u : AuthUser)
    (t : string) :
  mounted st -> user st = Some u -> user_type u = Some t -> t ∈ adminTypes ->
  render st (AppRoutes ["school-setup"]) = LayoutView (PageView "SchoolSetupPage")
  /\ render st (AppRoutes ["users"]) = LayoutView (PageView "UsersPage")
  /\ render st (AppRoutes ["classes"]) = LayoutView (PageView "ClassesPage")
  /\ render st (AppRoutes ["subjects"]) = LayoutView (PageView "SubjectsPage").
Proof.
  intros Hm Hu Ht Hin. pose proof (mounted_not_loading st Hm) as Hl.
  assert (forall name,
             render st (EProtected None
                          (ELayout (EProtected (Some adminTypes) (EPage name))))
             = LayoutView (PageView name)) as Hpage.
  { intros name. cbn [render].
    unfold ProtectedRoute, isAuthenticated, user_type_of. rewrite Hl, Hu, Ht.
    cbn [negb includes]. by rewrite bool_decide_eq_true_2. }
  repeat split; apply Hpage.
Qed.

Lemma admin_types_reach_admin_pages_witness :
  render (signed_in_as "principal") (AppRoutes ["school-setup"])
    = LayoutView (PageView "SchoolSetupPage")
  /\ render (signed_in_as "principal") (AppRoutes ["users"])
     = LayoutView (PageView "UsersPage")
  /\ render (signed_in_as "principal") (AppRoutes ["classes"])
     = LayoutView (PageView "ClassesPage")
  /\ render (signed_in_as "principal") (AppRoutes ["subjects"])
     = LayoutView (PageView "SubjectsPage").
Proof.
  apply (admin_types_reach_admin_pages (signed_in_as "principal")
           {| id := "u-1"; user_type := Some "principal" |} "principal").
  - apply mounted_login, mounted_effect.
  - reflexivity.
  - reflexivity.
  - apply (bool_decide_unpack _). by vm_compute.
Defined.

(** Every entry of the sidebar leads somewhere: whatever the user's type,
    following any link of the menu built for that user shows a page or a
    placeholder inside the layout, never a redirect. *)
Theorem sidebar_links_show_content (st : AuthState) (item : MenuItem) :
  mounted st -> item ∈ getMenuItems st -> shows_content (follow st item) = true.
Proof.
  intros Hm Hin. pose proof (mounted_not_loading st Hm) as Hl.
  unfold getMenuItems, user_type_of in Hin. unfold follow.
  rewrite render_checked_AppRoutes.
  destruct (user st) as [u |] eqn:Hu.
  2:{ simpl in Hin. by apply elem_of_nil in Hin. }
  assert (forall e, render st (EProtected None (ELayout e))
                    = LayoutView (render st e)) as Hout.
  { intros e. cbn [render]. unfold ProtectedRoute, isAuthenticated.
    by rewrite Hl, Hu. }
  assert (forall types child,
             includes types (user_type u) = true ->
             render st (EProtected (Some types) child) = render st child) as Hguard.
  { intros types child Hinc. cbn [render].
    unfold ProtectedRoute, isAuthenticated, user_type_of.
    by rewrite Hl, Hu, Hinc. }
  repeat match type of Hin with
         | _ ∈ (if ?b then _ else _) => destruct b eqn:?
         end.
  all: repeat match goal with
         | H : _ || _ = true |- _ => apply orb_true_iff in H as [H | H]
         | H : bool_decide _ = true |- _ => apply bool_decide_eq_true_1 in H
         end.
  all: repeat (apply elem_of_cons in Hin as [-> | Hin];
               [vm_compute segments; vm_compute AppRoutes; rewrite Hout;
                try (rewrite Hguard
                      by (match goal with Ht : user_type _ = _ |- _ => rewrite Ht end;
                          reflexivity));
                reflexivity |]).
  all: by apply elem_of_nil in Hin.
Qed.

Lemma sidebar_links_show_content_witness :
  shows_content
    (follow (signed_in_as "parent")
       {| label := "Leave Request"; path := "/leave-request" |}) = true.
Proof.
  apply (sidebar_links_show_content (signed_in_as "parent")).
  - apply mounted_login, mounted_effect.
  - apply (list_elem_of_lookup_2 _ 7). reflexivity.
Defined.

End ShellProofs.

(** ** Session: provider, storage and client together *)

Section AuthStoreProofs.
Import Routes AuthStore.

Variable stringify_user : AuthUser -> string.
Variable parse_user : string -> parsed AuthUser.
Variable parse_school : string -> parsed string.

Lemma truthy_item_insert (key value : string) (storage : gmap string string) :
  value <> "" -> truthy_item key (<[key := value]> storage) = Some value.
Proof.
  intros Hne. unfold truthy_item. rewrite lookup_insert_eq.
  destruct (String.eqb_spec value ""); done.
Qed.

Lemma truthy_item_insert_ne (key key' value : string) (storage : gmap string string) :
  key <> key' ->
  truthy_item key' (<[key := value]> storage) = truthy_item key' storage.
Proof. intros Hne. unfold truthy_item. by rewrite lookup_insert_ne. Qed.

Lemma truthy_item_missing (key : string) (storage : gmap string string) :
  storage !! key = None -> truthy_item key storage = None.
Proof. intros H. unfold truthy_item. by rewrite H. Qed.

(** Without a stored user or without a stored access token the mount effect
    restores nobody. *)
Lemma mount_without_session (storage : gmap string string) :
  truthy_item "user" storage = None \/ truthy_item "access_token" storage = None ->
  user (mount parse_user parse_school storage initial) = None
  /\ mounted (mount parse_user parse_school storage initial).
Proof.
  intros Hmissing.
  assert (mount parse_user parse_school storage initial
          = mount_effect None None None initial) as ->.
  { unfold mount. destruct Hmissing as [-> | ->]; [reflexivity |].
    by destruct (truthy_item "user" storage). }
  split; [reflexivity | apply mounted_effect].
Qed.

(** A successful login survives a page reload: with a non-empty access
    token, a user text that parses back to the user, and a school entry, if
    the storage holds one, on which [JSON.parse] does not throw, the mount
    effect run on the storage left by [login] restores that same user and
    clears [loading]; the refresh token is stored as received. *)
Theorem login_survives_reload (r : LoginResponse) (st : AuthState)
    (storage : gmap string string) :
  access_token r <> "" ->
  stringify_user (user_data r) <> "" ->
  parse_user (stringify_user (user_data r)) = Object (user_data r) ->
  (forall storedSchool, truthy_item "school" storage = Some storedSchool ->
                        parse_school storedSchool <> Throws) ->
  let '(st', storage', result) :=
    login_op stringify_user (Promise.Fulfilled r) st storage in
  result = Promise.Fulfilled (user_data r)
  /\ user st' = Some (user_data r)
  /\ user (mount parse_user parse_school storage' initial) = Some (user_data r)
  /\ loading (mount parse_user parse_school storage' initial) = false
  /\ storage' !! "refresh_token" = Some (refresh_token r).
Proof.
  intros Htoken Htext Hparse Hschool. simpl.
  split; [reflexivity |]. split; [reflexivity |].
  unfold mount.
  rewrite truthy_item_insert by done.
  rewrite (truthy_item_insert_ne "user" "access_token") by done.
  rewrite (truthy_item_insert_ne "refresh_token" "access_token") by done.
  rewrite truthy_item_insert by done.
  rewrite !(truthy_item_insert_ne _ "school") by done.
  rewrite Hparse. simpl.
  destruct (truthy_item "school" storage) as [storedSchool |] eqn:Hstored.
  - specialize (Hschool storedSchool eq_refl).
    destruct (parse_school storedSchool); [done | |]; repeat split;
      rewrite lookup_insert_ne by done; by rewrite lookup_insert_eq.
  - repeat split. rewrite lookup_insert_ne by done. by rewrite lookup_insert_eq.
Qed.

(** [logout] ends the session for good: the user and the school leave the
    state, the four entries access_token, refresh_token, user and school
    leave the storage while every other entry stays, and a mount effect run
    on that storage restores nobody. *)
Theorem logout_ends_session (st : AuthState) (storage : gmap string string) :
  let '(st', storage') := logout_op st storage in
  user st' = None /\ school st' = None
  /\ Forall (fun key => storage' !! key = None)
            ["access_token"; "refresh_token"; "user"; "school"]
  /\ (forall key, key ∉ ["access_token"; "refresh_token"; "user"; "school"] ->
                  storage' !! key = storage !! key)
  /\ user (mount parse_user parse_school storage' initial) = None.
Proof.
  simpl. split; [reflexivity |]. split; [reflexivity |].
  split.
  { repeat constructor; by simplify_map_eq. }
  split.
  { intros key Hkey. rewrite !not_elem_of_cons in Hkey.
    destruct Hkey as (? & ? & ? & ? & _). by rewrite !lookup_delete_ne. }
  apply mount_without_session. left.
  apply truthy_item_missing. by simplify_map_eq.
Qed.

End AuthStoreProofs.

Section ClientExtras.
Import ApiClient.
Variable backend : World -> Config -> option nat + string.
Variable refresh_endpoint : World -> string -> Promise.settled (option string).

Lemma request_interceptor_url (w : World) (c : Config) :
  url (request_interceptor w c) = url c.
Proof. unfold request_interceptor. by destruct (getItem_truthy _ w). Qed.

(** The first pass of a request that is answered 401, was not retried yet
    and finds a refresh token. *)
Lemma api_refreshing (fuel : nat) (c : Config) (w : World) (rt : string) :
  let sent := request_interceptor w c in
  let w1 := emit (Sent sent) w in
  backend w1 sent = inl (Some 401%nat) ->
  _retry c = false ->
  getItem_truthy "refresh_token" w1 = Some rt ->
  api backend refresh_endpoint (S fuel) c w =
    match refresh_endpoint (emit (RefreshPosted rt) w1) rt with
    | Promise.Fulfilled token =>
        api backend refresh_endpoint fuel (mark_retry sent)
          (setItem "access_token" (stored_token token) (emit (RefreshPosted rt) w1))
    | Promise.Rejected _ =>
        Some (redirect "/login"
                (removeItem "user"
                   (removeItem "refresh_token"
                      (removeItem "access_token" (emit (RefreshPosted rt) w1)))),
              Failed {| status := Some 401%nat; config := mark_retry sent |})
    end.
Proof.
  intros sent w1 H401 Hretry Hrt. cbn [api]. fold sent. fold w1.
  rewrite H401. subst sent. rewrite request_interceptor_retry, Hretry.
  rewrite bool_decide_eq_true_2 by done. cbn [andb negb]. by rewrite Hrt.
Qed.

(** When a request is answered 401 and the refresh succeeds, the client
    stores the new access token (leaving every other entry and the location
    alone) and sends the request once more, marked as retried and carrying
    the new token as its Bearer header; the caller gets whatever that second
    attempt gives, be it another 401. *)
Theorem refresh_success_retries_with_new_token (c : Config) (w : World)
    (rt : string) (token : option string) :
  let sent := request_interceptor w c in
  let w1 := emit (Sent sent) w in
  let fresh := stored_token token in
  let again := {| url := url c; authorization := Some ("Bearer " +:+ fresh);
                  _retry := true |} in
  backend w1 sent = inl (Some 401%nat) ->
  _retry c = false ->
  getItem_truthy "refresh_token" w1 = Some rt ->
  refresh_endpoint (emit (RefreshPosted rt) w1) rt = Promise.Fulfilled token ->
  fresh <> "" ->
  exists w' out,
    api backend refresh_endpoint 2 c w = Some (w', out)
    /\ localStorage w' = <["access_token" := fresh]> (localStorage w)
    /\ location w' = location w
    /\ log w' = (log w ++ [Sent sent; RefreshPosted rt;
                           SetItem "access_token" fresh; Sent again])%list
    /\ out = match backend w' again with
             | inr body => Response body
             | inl st => Failed {| status := st; config := again |}
             end.
Proof.
  intros sent w1 fresh again H401 Hretry Hrt Hrefresh Hfresh.
  rewrite (api_refreshing 1 c w rt H401 Hretry Hrt). fold sent w1. rewrite Hrefresh.
  fold fresh. set (w3 := setItem "access_token" fresh _).
  assert (request_interceptor w3 (mark_retry sent) = again) as Hagain.
  { unfold request_interceptor, getItem_truthy. subst w3. cbn [localStorage setItem].
    rewrite lookup_insert_eq. destruct (String.eqb_spec fresh ""); [done |].
    subst again sent. cbn [mark_retry url _retry]. by rewrite request_interceptor_url. }
  cbn [api]. rewrite Hagain.
  set (w4 := emit (Sent again) w3).
  exists w4, (match backend w4 again with
              | inr body => Response body
              | inl st => Failed {| status := st; config := again |}
              end).
  split.
  { destruct (backend w4 again) as [st | body]; [| reflexivity].
    subst again. cbn [_retry negb]. rewrite andb_false_r. reflexivity. }
  split; [reflexivity |]. split; [reflexivity |].
  split; [simpl; by rewrite <- !app_assoc | reflexivity].
Qed.

End ClientExtras.

Section ClientExtras2.
Import ApiClient.
Variable backend : World -> Config -> option nat + string.
Variable refresh_endpoint : World -> string -> Promise.settled (option string).

(** A failure is handed to the caller as it came, after a single attempt
    and with storage and location untouched, whenever its status is not 401,
    or the request was already a retry, or no refresh token is stored: in
    none of these cases does the client refresh, clean up or redirect. *)
Theorem failures_without_refresh_pass_through (fuel : nat) (c : Config)
    (w : World) (st : option nat) :
  let sent := request_interceptor w c in
  let w1 := emit (Sent sent) w in
  backend w1 sent = inl st ->
  st <> Some 401%nat \/ _retry c = true
  \/ getItem_truthy "refresh_token" w1 = None ->
  exists error,
    api backend refresh_endpoint (S fuel) c w = Some (w1, Failed error)
    /\ status error = st
    /\ url (config error) = url c
    /\ localStorage w1 = localStorage w
    /\ location w1 = location w
    /\ log w1 = (log w ++ [Sent sent])%list.
Proof.
  intros sent w1 Hst Hwhy. cbn [api]. fold sent. fold w1. rewrite Hst.
  assert (url sent = url c) as Hurl by apply request_interceptor_url.
  destruct (bool_decide (st = Some 401%nat) && negb (_retry sent)) eqn:Hcond.
  - apply andb_true_iff in Hcond as [H401%bool_decide_eq_true_1 Hnr].
    subst sent. rewrite request_interceptor_retry in Hnr.
    destruct Hwhy as [Hne | [Hretry | Hnone]].
    + done.
    + rewrite Hretry in Hnr. discriminate.
    + rewrite Hnone. eexists. split; [reflexivity |]. by repeat split.
  - eexists. split; [reflexivity |]. by repeat split.
Qed.

(** Whatever the server answers, a request through the client leaves every
    storage entry other than access_token, refresh_token and user as it was.
    Either the refresh token, the user entry and the location are unchanged
    as well, or all three session entries are gone and the location is
    /login: the client never redirects without having removed them. *)
Theorem client_touches_only_session_entries (c : Config) (w : World) :
  exists w' out,
    api backend refresh_endpoint 2 c w = Some (w', out)
    /\ (forall key, key ∉ ["access_token"; "refresh_token"; "user"] ->
                    localStorage w' !! key = localStorage w !! key)
    /\ (localStorage w' !! "refresh_token" = localStorage w !! "refresh_token"
        /\ localStorage w' !! "user" = localStorage w !! "user"
        /\ location w' = location w
        \/ Forall (fun key => localStorage w' !! key = None)
                  ["access_token"; "refresh_token"; "user"]
           /\ location w' = "/login").
Proof.
  cbn [api].
  set (sent := request_interceptor w c). set (w1 := emit (Sent sent) w).
  destruct (backend w1 sent) as [st | body].
  2:{ exists w1, (Response body). split; [reflexivity |]. split; [done | by left]. }
  destruct (bool_decide (st = Some 401%nat) && negb (_retry sent)) eqn:Hcond.
  2:{ eexists w1, _. split; [reflexivity |]. split; [done | by left]. }
  destruct (getItem_truthy "refresh_token" w1) as [rt |].
  2:{ eexists w1, _. split; [reflexivity |]. split; [done | by left]. }
  set (w2 := emit (RefreshPosted rt) w1).
  destruct (refresh_endpoint w2 rt) as [token | reason].
  - set (w3 := setItem "access_token" (stored_token token) w2).
    set (again := request_interceptor w3 (mark_retry sent)).
    assert (_retry again = true) as Hagain.
    { subst again. by rewrite request_interceptor_retry. }
    exists (emit (Sent again) w3).
    destruct (backend (emit (Sent again) w3) again) as [st' | body'].
    + rewrite Hagain. cbn [negb]. rewrite andb_false_r.
      eexists. split; [reflexivity |]. split.
      * intros key Hkey. rewrite !not_elem_of_cons in Hkey.
        destruct Hkey as (? & _). simpl. by rewrite lookup_insert_ne.
      * left. simpl. by rewrite !lookup_insert_ne.
    + eexists. split; [reflexivity |]. split.
      * intros key Hkey. rewrite !not_elem_of_cons in Hkey.
        destruct Hkey as (? & _). simpl. by rewrite lookup_insert_ne.
      * left. simpl. by rewrite !lookup_insert_ne.
  - eexists _, _. split; [reflexivity |]. split.
    + intros key Hkey. rewrite !not_elem_of_cons in Hkey.
      destruct Hkey as (? & ? & ? & _). simpl. by rewrite !lookup_delete_ne.
    + right. split; [| reflexivity].
      repeat constructor; simpl; by simplify_map_eq.
Qed.

End ClientExtras2.

Section SessionEnd.
Import ApiClient.
Variable backend : World -> Config -> option nat + string.
Variable refresh_endpoint : World -> string -> Promise.settled (option string).
Variable parse_user : string -> AuthStore.parsed Routes.AuthUser.
Variable parse_school : string -> AuthStore.parsed string.

(** When the refresh is refused, the storage the client leaves behind
    restores nobody: the mount effect run on it yields a mounted state
    without a user.  Unlike [logout], the client leaves the school entry in
    the storage. *)
Theorem refused_refresh_ends_session (c : Config) (w : World)
    (rt reason : string) :
  let sent := request_interceptor w c in
  let w1 := emit (Sent sent) w in
  backend w1 sent = inl (Some 401%nat) ->
  _retry c = false ->
  getItem_truthy "refresh_token" w1 = Some rt ->
  refresh_endpoint (emit (RefreshPosted rt) w1) rt = Promise.Rejected reason ->
  exists w' error,
    api backend refresh_endpoint 2 c w = Some (w', Failed error)
    /\ Routes.user (AuthStore.mount parse_user parse_school (localStorage w')
                      Routes.initial) = None
    /\ Routes.mounted (AuthStore.mount parse_user parse_school (localStorage w')
                         Routes.initial)
    /\ localStorage w' !! "school" = localStorage w !! "school".
Proof.
  intros sent w1 H401 Hretry Hrt Hrefresh.
  rewrite (api_refreshing backend refresh_endpoint 1 c w rt H401 Hretry Hrt).
  fold sent w1. rewrite Hrefresh.
  eexists _, _. split; [reflexivity |].
  assert (AuthStore.truthy_item "user"
            (localStorage
               (redirect "/login"
                  (removeItem "user"
                     (removeItem "refresh_token"
                        (removeItem "access_token" (emit (RefreshPosted rt) w1))))))
          = None) as Huser.
  { apply truthy_item_missing. simpl. by simplify_map_eq. }
  destruct (mount_without_session parse_user parse_school _ (or_introl Huser))
    as [Hnone Hm].
  split; [exact Hnone |]. split; [exact Hm |].
  simpl. by rewrite !lookup_delete_ne.
Qed.

End SessionEnd.

Section SessionSamples.
Import Routes AuthStore ApiClient.

Lemma login_survives_reload_witness :
  let '(st', storage', result) :=
    login_op (fun _ => ada_text) (Promise.Fulfilled ada_login) Shell.visitor
      (<["school" := "Greenfield"]> ∅) in
  result = Promise.Fulfilled teacher_ada
  /\ user st' = Some teacher_ada
  /\ user (mount (fun text => if String.eqb text ada_text
                              then Object teacher_ada else Throws)
                 (fun text => Object text) storage' initial)
     = Some teacher_ada
  /\ loading (mount (fun text => if String.eqb text ada_text
                                 then Object teacher_ada else Throws)
                    (fun text => Object text) storage' initial) = false
  /\ storage' !! "refresh_token" = Some "rt-9".
Proof.
  apply (login_survives_reload (fun _ => ada_text)
           (fun text => if String.eqb text ada_text
                        then Object teacher_ada else Throws)
           (fun text => Object text) ada_login Shell.visitor
           (<["school" := "Greenfield"]> ∅)).
  - discriminate.
  - discriminate.
  - reflexivity.
  - intros storedSchool _. discriminate.
Defined.

Lemma refresh_success_retries_witness :
  exists w' out,
    api ClientSamples.renewing_backend ClientSamples.granting_refresh 2
      class_attendance_request signed_in = Some (w', out)
    /\ localStorage w' = <["access_token" := "at-2"]> (localStorage signed_in)
    /\ location w' = "/attendance"
    /\ log w'
       = [Sent {| url := "/attendance/class/class-1";
                  authorization := Some "Bearer at-1"; _retry := false |};
          RefreshPosted "rt-1"; SetItem "access_token" "at-2";
          Sent {| url := "/attendance/class/class-1";
                  authorization := Some "Bearer at-2"; _retry := true |}]
    /\ out = Response "ok".
Proof.
  apply (refresh_success_retries_with_new_token ClientSamples.renewing_backend
           ClientSamples.granting_refresh class_attendance_request signed_in
           "rt-1" (Some "at-2")).
  - reflexivity.
  - reflexivity.
  - by vm_compute.
  - reflexivity.
  - discriminate.
Defined.

Lemma failures_without_refresh_witness :
  exists error,
    api ClientSamples.broken_backend ClientSamples.granting_refresh 1
      class_attendance_request signed_in
    = Some (emit (Sent (request_interceptor signed_in class_attendance_request))
              signed_in,
            Failed error)
    /\ status error = Some 500%nat
    /\ url (config error) = "/attendance/class/class-1"
    /\ localStorage
         (emit (Sent (request_interceptor signed_in class_attendance_request))
            signed_in) = localStorage signed_in
    /\ location
         (emit (Sent (request_interceptor signed_in class_attendance_request))
            signed_in) = "/attendance"
    /\ log (emit (Sent (request_interceptor signed_in class_attendance_request))
              signed_in)
       = [Sent (request_interceptor signed_in class_attendance_request)].
Proof.
  apply (failures_without_refresh_pass_through ClientSamples.broken_backend
           ClientSamples.granting_refresh 0 class_attendance_request signed_in
           (Some 500%nat)).
  - reflexivity.
  - left. discriminate.
Defined.

Lemma refused_refresh_ends_session_witness :
  exists w' error,
    api expired_backend refusing_refresh 2 class_attendance_request signed_in
    = Some (w', Failed error)
    /\ Routes.user (AuthStore.mount (fun _ => AuthStore.Object AuthStore.teacher_ada) AuthStore.Object
                      (localStorage w') Routes.initial) = None
    /\ Routes.mounted (AuthStore.mount (fun _ => AuthStore.Object AuthStore.teacher_ada) AuthStore.Object
                         (localStorage w') Routes.initial)
    /\ localStorage w' !! "school" = localStorage signed_in !! "school".
Proof.
  apply (refused_refresh_ends_session expired_backend refusing_refresh
           (fun _ => AuthStore.Object AuthStore.teacher_ada) AuthStore.Object class_attendance_request
           signed_in "rt-1" "Invalid refresh token").
  - reflexivity.
  - reflexivity.
  - by vm_compute.
  - reflexivity.
Defined.

End SessionSamples.

(** ** Marking session *)

Section SessionProofs.
Import AttendancePage AttendanceSession.

Lemma foldl_insert_dom (value_of : StudentRow -> Js.value)
    (data : list StudentRow) (acc : gmap string Js.value) :
  dom (foldl (fun records student => <[student_id student := value_of student]> records)
             acc data)
  = dom acc ∪ list_to_set (student_id <$> data).
Proof.
  revert acc. induction data as [| x data IH]; intros acc; simpl.
  - by rewrite (right_id_L ∅ (∪)).
  - rewrite IH, dom_insert_L.
    rewrite (comm_L (∪) {[student_id x]} (dom acc)).
    by rewrite <- (assoc_L (∪)).
Qed.

Lemma foldl_insert_values (value_of : StudentRow -> Js.value)
    (data : list StudentRow) (acc : gmap string Js.value) (k : string)
    (v : Js.value) :
  foldl (fun records student => <[student_id student := value_of student]> records)
        acc data !! k = Some v ->
  acc !! k = Some v
  \/ exists s, s ∈ data /\ student_id s = k /\ v = value_of s.
Proof.
  revert acc. induction data as [| x data IH]; intros acc Hl; [by left |].
  simpl in Hl. apply IH in Hl as [Hl | (s & Hs & Hk & Hv)].
  - destruct (decide (student_id x = k)) as [<- | Hne].
    + rewrite lookup_insert_eq in Hl. injection Hl as <-.
      right. exists x. split; [apply elem_of_cons; by left | done].
    + rewrite lookup_insert_ne in Hl by done. by left.
  - right. exists s. split; [apply elem_of_cons; by right | done].
Qed.

Lemma statuses_truthy (v : Js.value) :
  v ∈ ATTENDANCE_STATUSES -> Js.truthy v = true.
Proof.
  unfold ATTENDANCE_STATUSES. intros Hv.
  repeat (apply elem_of_cons in Hv as [-> | Hv]; [reflexivity |]).
  by apply elem_of_nil in Hv.
Qed.

Lemma or_present_truthy (v : Js.value) : Js.truthy (Js.or v (Js.Str "present")) = true.
Proof. unfold Js.or. by destruct (Js.truthy v) eqn:Hv. Qed.

Lemma fetch_tracked (api : AttendanceAPI) (st : State) :
  tracked st -> tracked (fetchAttendance api st).1.
Proof.
  intros [Hdom Hval]. unfold fetchAttendance.
  destruct (getClassAttendance api _ _ _) as [data | reason]; [| done].
  split; simpl.
  - unfold initial_records. rewrite foldl_insert_dom, dom_empty_L.
    apply (left_id_L ∅ (∪)).
  - intros k v Hkv. apply foldl_insert_values in Hkv as [Hkv | (s & _ & _ & ->)].
    + by rewrite lookup_empty in Hkv.
    + apply or_present_truthy.
Qed.

Lemma session_tracked (ok : list StudentRow -> Prop) (st : State) :
  session ok st -> tracked st.
Proof.
  induction 1 as [today | c st _ IH | c st _ IH | d st _ IH | api st _ IH _
                  | s v st _ IH Hs Hv | st _ IH | api st _ IH _].
  - split; simpl; [apply dom_empty_L | apply map_Forall_empty].
  - exact IH.
  - exact IH.
  - exact IH.
  - by apply fetch_tracked.
  - destruct IH as [Hdom Hval]. split; simpl.
    + rewrite dom_insert_L, Hdom.
      assert (student_id s ∈ (list_to_set (student_id <$> attendanceData st) : gset string)).
      { apply elem_of_list_to_set, list_elem_of_fmap. by exists s. }
      by apply subseteq_union_1_L, singleton_subseteq_l.
    + apply map_Forall_insert_2; [by apply statuses_truthy | done].
  - split; simpl.
    + rewrite foldl_insert_dom, dom_empty_L.
    apply (left_id_L ∅ (∪)).
    + intros k v Hkv. apply foldl_insert_values in Hkv as [Hkv | (s & _ & _ & ->)].
      * by rewrite lookup_empty in Hkv.
      * reflexivity.
  - unfold handleSaveAttendance.
    destruct (bulkMarkAttendance api _); [| exact IH].
    pose proof (fetch_tracked api st IH) as Hf.
    destruct (fetchAttendance api st) as [st' effects]. exact Hf.
Qed.

Lemma third_marked_late_session (ok : list StudentRow -> Prop) :
  ok sample_rows -> session ok third_marked_late.
Proof.
  intros Hok.
  apply (session_change ok {| student_id := "st-3"; status := Js.Undefined |}).
  - apply (session_fetch ok sample_api
             (setSelectedClass "class-1" (initial "2026-03-02"))).
    + apply session_class, session_initial.
    + intros data [= <-]. exact Hok.
  - apply (list_elem_of_lookup_2 _ 2). reflexivity.
  - apply (list_elem_of_lookup_2 _ 2). reflexivity.
Qed.

(** What is shown is what is saved: at any point of a marking session, the
    request built by the save carries, for every listed student, exactly the
    status shown in that student's row; it carries nothing for anyone who is
    not listed, and no student twice. *)
Theorem saved_is_displayed (st : State) :
  session any_rows st ->
  (forall student, student ∈ attendanceData st ->
     {| bulk_student_id := student_id student;
        bulk_status := displayed_status st student |}
       ∈ records (save_payload st))
  /\ (forall r, r ∈ records (save_payload st) ->
        exists student, student ∈ attendanceData st
                        /\ bulk_student_id r = student_id student
                        /\ bulk_status r = displayed_status st student)
  /\ NoDup (bulk_student_id <$> records (save_payload st)).
Proof.
  intros Hs. destruct (session_tracked _ _ Hs) as [Hdom Hval].
  assert (forall k v, attendanceRecords st !! k = Some v ->
                      Js.or (default Js.Undefined (attendanceRecords st !! k))
                            (Js.Str "present") = v) as Hshown.
  { intros k v Hkv. rewrite Hkv. simpl. unfold Js.or. by rewrite (Hval k v Hkv). }
  split; [| split].
  - intros s Hin.
    assert (student_id s ∈ dom (attendanceRecords st)) as Hk.
    { rewrite Hdom. apply elem_of_list_to_set, list_elem_of_fmap. by exists s. }
    apply elem_of_dom in Hk as [v Hkv].
    unfold save_payload. cbn [records]. apply list_elem_of_fmap.
    exists (student_id s, v). split.
    + unfold displayed_status. by rewrite (Hshown _ _ Hkv).
    + by apply elem_of_map_to_list.
  - intros r Hr. unfold save_payload in Hr. cbn [records] in Hr.
    apply list_elem_of_fmap in Hr as ([k v] & -> & Hkv).
    apply elem_of_map_to_list in Hkv.
    assert (k ∈ dom (attendanceRecords st)) as Hk by (apply elem_of_dom; eauto).
    rewrite Hdom in Hk. apply elem_of_list_to_set, list_elem_of_fmap in Hk as (s & -> & Hin).
    exists s. split; [done |]. split; [done |].
    unfold displayed_status. simpl. by rewrite (Hshown _ _ Hkv).
  - unfold save_payload. cbn [records]. rewrite <- list_fmap_compose.
    apply NoDup_fst_map_to_list.
Qed.

Lemma saved_is_displayed_witness :
  {| bulk_student_id := "st-3"; bulk_status := Js.Str "late" |}
    ∈ records (save_payload third_marked_late).
Proof.
  apply (proj1 (saved_is_displayed third_marked_late
                  (third_marked_late_session any_rows I))
           {| student_id := "st-3"; status := Js.Undefined |}).
  apply (list_elem_of_lookup_2 _ 2). reflexivity.
Defined.


Lemma fetch_clean (api : AttendanceAPI) (st : State) :
  (forall data,
      getClassAttendance api (selectedClass st) (selectedDate st)
        (section_or_undefined (selectedSection st)) = Promise.Fulfilled data ->
      clean_rows data) ->
  clean st -> clean (fetchAttendance api st).1.
Proof.
  intros Hok Hclean. unfold fetchAttendance.
  destruct (getClassAttendance api _ _ _) as [data | reason]; [| done].
  destruct (Hok data eq_refl) as [Hnd Hrows].
  split; [exact Hnd |]. split; simpl.
  - unfold initial_records. rewrite foldl_insert_dom, dom_empty_L.
    apply (left_id_L ∅ (∪)).
  - intros k v Hkv. apply foldl_insert_values in Hkv as [Hkv | (s & Hs & _ & ->)].
    + by rewrite lookup_empty in Hkv.
    + rewrite Forall_forall in Hrows. unfold Js.or.
      destruct (Hrows s Hs) as [Hfalsy | Hknown].
      * rewrite Hfalsy. apply elem_of_cons. by left.
      * by rewrite (statuses_truthy _ Hknown).
Qed.

Lemma session_clean (st : State) : session clean_rows st -> clean st.
Proof.
  induction 1 as [today | c st _ IH | c st _ IH | d st _ IH | api st _ IH Hok
                  | s v st _ IH Hs Hv | st _ IH | api st _ IH Hok].
  - split; [apply NoDup_nil_2 |]. split; simpl; [apply dom_empty_L | apply map_Forall_empty].
  - exact IH.
  - exact IH.
  - exact IH.
  - by apply fetch_clean.
  - destruct IH as (Hnd & Hdom & Hval). split; [exact Hnd |]. split; simpl.
    + rewrite dom_insert_L, Hdom.
      assert (student_id s ∈ (list_to_set (student_id <$> attendanceData st) : gset string)).
      { apply elem_of_list_to_set, list_elem_of_fmap. by exists s. }
      by apply subseteq_union_1_L, singleton_subseteq_l.
    + by apply map_Forall_insert_2.
  - destruct IH as (Hnd & _ & _). split; [exact Hnd |]. split; simpl.
    + rewrite foldl_insert_dom, dom_empty_L.
    apply (left_id_L ∅ (∪)).
    + intros k v Hkv. apply foldl_insert_values in Hkv as [Hkv | (s & _ & _ & ->)].
      * by rewrite lookup_empty in Hkv.
      * apply elem_of_cons. by left.
  - unfold handleSaveAttendance.
    destruct (bulkMarkAttendance api _); [| exact IH].
    pose proof (fetch_clean api st Hok IH) as Hf.
    destruct (fetchAttendance api st) as [st' effects]. exact Hf.
Qed.

Lemma size_marks (st : State) :
  NoDup (student_id <$> attendanceData st) ->
  dom (attendanceRecords st) = list_to_set (student_id <$> attendanceData st) ->
  size (attendanceRecords st) = length (attendanceData st).
Proof.
  intros Hnd Hdom. rewrite <- size_dom, Hdom, size_list_to_set by done.
  apply length_fmap.
Qed.

(** Against a server that lists each student once, with a status that is
    missing or one of the five known ones, the four counters of the summary
    add up to Total at every point of a marking session, and the save
    request carries as many records as Total. *)
Theorem session_counts_add_up (st : State) :
  session clean_rows st ->
  (present (summary st) + absent (summary st) + late (summary st)
   + excused (summary st) = total (summary st))%nat
  /\ length (records (save_payload st)) = total (summary st).
Proof.
  intros Hs. destruct (session_clean st Hs) as (Hnd & Hdom & Hval).
  pose proof (size_marks st Hnd Hdom) as Hsize.
  assert (length (record_values st) = length (attendanceData st)) as Hlen.
  { unfold record_values. by rewrite length_fmap, length_map_to_list. }
  split.
  - unfold summary. simpl. rewrite counts_partition; [exact Hlen |].
    unfold record_values. apply Forall_fmap, Forall_forall. intros [k v] Hkv.
    apply elem_of_map_to_list in Hkv. exact (Hval k v Hkv).
  - unfold save_payload. simpl. by rewrite length_fmap, length_map_to_list.
Qed.

Lemma session_counts_add_up_witness :
  (present (summary third_marked_late) + absent (summary third_marked_late)
   + late (summary third_marked_late) + excused (summary third_marked_late)
   = total (summary third_marked_late))%nat
  /\ length (records (save_payload third_marked_late))
     = total (summary third_marked_late).
Proof.
  apply (session_counts_add_up third_marked_late).
  apply third_marked_late_session. split.
  - apply (bool_decide_unpack _). by vm_compute.
  - unfold sample_rows.
    apply Forall_cons_2; [right; apply (list_elem_of_lookup_2 _ 4); reflexivity |].
    apply Forall_cons_2; [by left |].
    apply Forall_cons_2; [by left | apply Forall_nil_2].
Defined.


Lemma foldl_insert_lookup_listed (value_of : StudentRow -> Js.value)
    (data : list StudentRow) (k : string) :
  k ∈ student_id <$> data ->
  exists s, s ∈ data /\ student_id s = k
            /\ foldl (fun records student =>
                        <[student_id student := value_of student]> records)
                     (∅ : gmap string Js.value) data !! k = Some (value_of s).
Proof.
  intros Hk.
  assert (k ∈ dom (foldl (fun records student =>
                            <[student_id student := value_of student]> records)
                         (∅ : gmap string Js.value) data)) as Hd.
  { rewrite foldl_insert_dom. apply elem_of_union. right.
    by apply elem_of_list_to_set. }
  apply elem_of_dom in Hd as [v Hv].
  pose proof Hv as Hv'.
  apply foldl_insert_values in Hv' as [Hv' | (s & Hs & Hid & ->)].
  - by rewrite lookup_empty in Hv'.
  - by exists s.
Qed.

(** Saving is a round trip: when the save succeeds and the reload that
    follows lists the students of the marking state with the statuses just
    posted, the marking state after the save is the one before it, and the
    only effects are the request and the success toast. *)
Theorem save_then_reload_keeps_marks (api : AttendanceAPI) (st : State)
    (data : list StudentRow) :
  session any_rows st ->
  bulkMarkAttendance api (save_payload st) = Promise.Fulfilled tt ->
  getClassAttendance api (selectedClass st) (selectedDate st)
    (section_or_undefined (selectedSection st)) = Promise.Fulfilled data ->
  (forall row, row ∈ data ->
               attendanceRecords st !! student_id row = Some (status row)) ->
  (forall k, is_Some (attendanceRecords st !! k) -> k ∈ student_id <$> data) ->
  attendanceRecords (handleSaveAttendance api st).1 = attendanceRecords st
  /\ attendanceData (handleSaveAttendance api st).1 = data
  /\ (handleSaveAttendance api st).2
     = [Posted (save_payload st); ToastSuccess "Attendance saved successfully!"].
Proof.
  intros Hs Hpost Hget Hecho Hcover.
  destruct (session_tracked _ _ Hs) as [_ Hval].
  unfold handleSaveAttendance, fetchAttendance. rewrite Hpost, Hget. simpl.
  split; [| done].
  apply map_eq. intros k. unfold initial_records.
  destruct (decide (k ∈ student_id <$> data)) as [Hk | Hk].
  - destruct (foldl_insert_lookup_listed
                (fun student => Js.or (status student) (Js.Str "present")) data k Hk)
      as (s & Hin & <- & ->).
    rewrite (Hecho s Hin). unfold Js.or.
    by rewrite (Hval _ _ (Hecho s Hin)).
  - rewrite (foldl_insert_other
               (fun student => Js.or (status student) (Js.Str "present"))
               data ∅ k Hk), lookup_empty.
    destruct (attendanceRecords st !! k) eqn:Hl; [| done].
    exfalso. apply Hk, Hcover. by rewrite Hl.
Qed.

Lemma save_then_reload_keeps_marks_witness :
  attendanceRecords (handleSaveAttendance echo_api third_marked_late).1
    = attendanceRecords third_marked_late
  /\ attendanceData (handleSaveAttendance echo_api third_marked_late).1
     = [{| student_id := "st-1"; status := Js.Str "medical" |};
        {| student_id := "st-2"; status := Js.Str "present" |};
        {| student_id := "st-3"; status := Js.Str "late" |}]
  /\ (handleSaveAttendance echo_api third_marked_late).2
     = [Posted (save_payload third_marked_late);
        ToastSuccess "Attendance saved successfully!"].
Proof.
  apply (save_then_reload_keeps_marks echo_api third_marked_late).
  - exact (third_marked_late_session any_rows I).
  - reflexivity.
  - reflexivity.
  - intros row Hrow.
    repeat (apply elem_of_cons in Hrow as [-> | Hrow]; [by vm_compute |]).
    by apply elem_of_nil in Hrow.
  - intros k [v Hkv]. apply elem_of_map_to_list in Hkv.
    revert Hkv. vm_compute map_to_list. intros Hkv.
    repeat (apply elem_of_cons in Hkv as [[= -> ->] | Hkv];
            [apply (bool_decide_unpack _); by vm_compute |]).
    by apply elem_of_nil in Hkv.
Defined.


Lemma count_eq_all (a b : Js.value) (values : list Js.value) :
  Forall (fun v => v = a) values ->
  count_eq b values = if decide (a = b) then length values else 0%nat.
Proof.
  unfold count_eq. induction 1 as [| v values -> _ IH]; [by destruct (decide _) |].
  rewrite filter_cons. destruct (decide (a = b)) as [-> | Hne].
  - simpl. by rewrite IH.
  - exact IH.
Qed.

(** With one row per student, Mark All Present leaves every listed student
    marked present and the summary at Present = Total with the three other
    counters at 0, whatever was marked before. *)
Theorem mark_all_present_summary (st : State) :
  NoDup (student_id <$> attendanceData st) ->
  summary (markAllPresent st) =
    {| total := length (attendanceData st);
       present := length (attendanceData st);
       absent := 0; late := 0; excused := 0 |}
  /\ (forall student, student ∈ attendanceData st ->
        attendanceRecords (markAllPresent st) !! student_id student
        = Some (Js.Str "present")).
Proof.
  intros Hnd.
  set (marked := markAllPresent st).
  assert (dom (attendanceRecords marked)
          = list_to_set (student_id <$> attendanceData marked)) as Hdom.
  { simpl. rewrite foldl_insert_dom, dom_empty_L.
    apply (left_id_L ∅ (∪)). }
  assert (forall k v, attendanceRecords marked !! k = Some v -> v = Js.Str "present")
    as Hall.
  { simpl. intros k v Hkv.
    apply foldl_insert_values in Hkv as [Hkv | (s & _ & _ & ->)]; [| done].
    by rewrite lookup_empty in Hkv. }
  assert (Forall (fun v => v = Js.Str "present") (record_values marked)) as Hvals.
  { unfold record_values. apply Forall_fmap, Forall_forall. intros [k v] Hkv.
    apply elem_of_map_to_list in Hkv. exact (Hall k v Hkv). }
  assert (length (record_values marked) = length (attendanceData st)) as Hlen.
  { unfold record_values. rewrite length_fmap, length_map_to_list.
    by apply (size_marks marked). }
  split.
  - unfold summary. rewrite count_two by discriminate.
    rewrite !(count_eq_all _ _ _ Hvals), Hlen. reflexivity.
  - intros s Hin.
    assert (student_id s ∈ dom (attendanceRecords marked)) as Hk.
    { rewrite Hdom. apply elem_of_list_to_set, list_elem_of_fmap. by exists s. }
    apply elem_of_dom in Hk as [v Hkv]. by rewrite Hkv, (Hall _ _ Hkv).
Qed.

Lemma mark_all_present_summary_witness :
  summary (markAllPresent third_marked_late) =
    {| total := 3; present := 3; absent := 0; late := 0; excused := 0 |}
  /\ (forall student, student ∈ attendanceData third_marked_late ->
        attendanceRecords (markAllPresent third_marked_late) !! student_id student
        = Some (Js.Str "present")).
Proof.
  apply (mark_all_present_summary third_marked_late).
  apply (bool_decide_unpack _). by vm_compute.
Defined.


Lemma count_eq_perm (a : Js.value) (l1 l2 : list Js.value) :
  l1 ≡ₚ l2 -> count_eq a l1 = count_eq a l2.
Proof. intros Hp. unfold count_eq. by rewrite Hp. Qed.

(** Changing the status of a student who has a mark moves exactly one mark:
    for every status, its count loses one if it was the old status and gains
    one if it is the new one, and nothing else; Total and the number of
    marks stay as they were. *)
Theorem status_change_moves_one_mark (st : State) (k : string)
    (old new_status a : Js.value) :
  attendanceRecords st !! k = Some old ->
  (count_eq a (record_values (handleStatusChange k new_status st))
   + (if decide (old = a) then 1 else 0)
   = count_eq a (record_values st) + (if decide (new_status = a) then 1 else 0))%nat
  /\ total (summary (handleStatusChange k new_status st)) = total (summary st)
  /\ size (attendanceRecords (handleStatusChange k new_status st))
     = size (attendanceRecords st).
Proof.
  intros Hold.
  assert (record_values st ≡ₚ
          old :: (map_to_list (delete k (attendanceRecords st))).*2) as Hbefore.
  { unfold record_values.
    rewrite <- (insert_delete_id (attendanceRecords st) k old Hold) at 1.
    rewrite map_to_list_insert by apply lookup_delete_eq. reflexivity. }
  assert (record_values (handleStatusChange k new_status st) ≡ₚ
          new_status :: (map_to_list (delete k (attendanceRecords st))).*2) as Hafter.
  { unfold record_values. simpl.
    rewrite <- insert_delete_eq.
    rewrite map_to_list_insert by apply lookup_delete_eq. reflexivity. }
  split; [| split].
  - rewrite (count_eq_perm a _ _ Hbefore), (count_eq_perm a _ _ Hafter).
    unfold count_eq. rewrite !filter_cons.
    destruct (decide (old = a)), (decide (new_status = a)); simpl; lia.
  - reflexivity.
  - simpl. rewrite map_size_insert_Some; [done | by rewrite Hold].
Qed.

Lemma status_change_moves_one_mark_witness :
  (count_eq (Js.Str "present")
     (record_values (handleStatusChange "st-3" (Js.Str "late") sample_loaded))
   + 1
   = count_eq (Js.Str "present") (record_values sample_loaded) + 0)%nat
  /\ total (summary (handleStatusChange "st-3" (Js.Str "late") sample_loaded))
     = total (summary sample_loaded)
  /\ size (attendanceRecords
             (handleStatusChange "st-3" (Js.Str "late") sample_loaded))
     = size (attendanceRecords sample_loaded).
Proof.
  apply (status_change_moves_one_mark sample_loaded "st-3" (Js.Str "present")
           (Js.Str "late") (Js.Str "present")).
  by vm_compute.
Defined.


(** When the load that follows a change of date fails, the page raises the
    toast and keeps the rows and marks it had: the save button stays as it
    was, and a save would post the marks loaded for the earlier date under
    the newly selected one. *)
Theorem failed_reload_keeps_old_marks (api : AttendanceAPI) (st : State)
    (day reason : string) :
  getClassAttendance api (selectedClass st) day
    (section_or_undefined (selectedSection st)) = Promise.Rejected reason ->
  let stale := (fetchAttendance api (setSelectedDate day st)).1 in
  (fetchAttendance api (setSelectedDate day st)).2
    = [ToastError "Failed to load attendance"]
  /\ attendanceData stale = attendanceData st
  /\ attendanceRecords stale = attendanceRecords st
  /\ date (save_payload stale) = day
  /\ records (save_payload stale) = records (save_payload st)
  /\ save_disabled stale = save_disabled st.
Proof.
  intros Hfail stale. subst stale. unfold fetchAttendance. simpl.
  rewrite Hfail. repeat split.
Qed.

Lemma failed_reload_keeps_old_marks_witness :
  (fetchAttendance offline_api (setSelectedDate "2026-03-03" sample_loaded)).2
    = [ToastError "Failed to load attendance"]
  /\ attendanceData
       (fetchAttendance offline_api (setSelectedDate "2026-03-03" sample_loaded)).1
     = attendanceData sample_loaded
  /\ attendanceRecords
       (fetchAttendance offline_api (setSelectedDate "2026-03-03" sample_loaded)).1
     = attendanceRecords sample_loaded
  /\ date (save_payload
             (fetchAttendance offline_api
                (setSelectedDate "2026-03-03" sample_loaded)).1)
     = "2026-03-03"
  /\ records (save_payload
                (fetchAttendance offline_api
                   (setSelectedDate "2026-03-03" sample_loaded)).1)
     = records (save_payload sample_loaded)
  /\ save_disabled
       (fetchAttendance offline_api (setSelectedDate "2026-03-03" sample_loaded)).1
     = save_disabled sample_loaded.
Proof.
  apply (failed_reload_keeps_old_marks offline_api sample_loaded "2026-03-03"
           "Network Error").
  reflexivity.
Defined.

End SessionProofs.

(** ** Portal pages, dashboard and pagination *)

Section PagesProofs.
Import Portal Pages.

(** After the children are fetched the page is never left spinning.  A
    failed fetch raises a toast and shows the same notice as an account with
    no linked child; otherwise the first child is selected, and the selector
    is shown only when there is more than one. *)
Theorem children_page_after_fetch (response : Promise.settled (list Child)) :
  children_view (fetchChildren response no_children_yet).1 =
    match response with
    | Promise.Fulfilled [] => NoChildrenLinked
    | Promise.Fulfilled [only] => ChildrenShown false (Some only)
    | Promise.Fulfilled (first :: _ :: _) => ChildrenShown true (Some first)
    | Promise.Rejected _ => NoChildrenLinked
    end
  /\ (fetchChildren response no_children_yet).2 =
     match response with
     | Promise.Fulfilled _ => []
     | Promise.Rejected _ => [ToastError "Failed to load children"]
     end.
Proof.
  destruct response as [[| first [| second rest]] | reason]; split; reflexivity.
Qed.

(** On the parent page a failed fetch looks like an empty record: when the
    attendance fetch fails, the attendance tab shows the no-records notice
    and its four counters show 0; when the grades fetch fails, the grades tab
    shows the no-grades notice.  A fetch that succeeds is shown as it came. *)
Theorem failed_child_data_looks_empty (api : ChildrenAPI)
    (startDate endDate studentId : string) (st : ChildrenState) :
  let st' := (fetchChildData api startDate endDate studentId st).1.1 in
  match getStudentAttendance api studentId startDate endDate with
  | Promise.Rejected _ =>
      attendance_list (attendanceData st') = NoRecordsYet
      /\ day_counters (attendanceData st') = [Q2Qc 0; Q2Qc 0; Q2Qc 0; Q2Qc 0]
  | Promise.Fulfilled a =>
      attendance_list (attendanceData st') = attendance_list (Some a)
      /\ day_counters (attendanceData st') = day_counters (Some a)
  end
  /\ match getStudentGrades api studentId with
     | Promise.Rejected _ => grades_tab (gradesData st') = NoGradesYet
     | Promise.Fulfilled g => grades_tab (gradesData st') = grades_tab (Some g)
     end.
Proof.
  intros st'. subst st'. unfold fetchChildData.
  destruct (getStudentAttendance api studentId startDate endDate);
    destruct (getStudentGrades api studentId); repeat split.
Qed.

(** On the student portal a failed dashboard fetch ends, like a dashboard
    without a student, in the notice that the student profile was not found,
    with the toast in the first case; the page never stays on the spinner
    once [fetchData] has run. *)
Theorem failed_dashboard_shows_profile_not_found (api : PortalAPI) :
  portal_view (fetchData api portal_initial).1.1 =
    match getStudentDashboard api with
    | Promise.Fulfilled d =>
        match student d with
        | Some name => PortalShown name
        | None => ProfileNotFound
        end
    | Promise.Rejected _ => ProfileNotFound
    end
  /\ (fetchData api portal_initial).1.2 =
     match getStudentDashboard api with
     | Promise.Fulfilled _ => []
     | Promise.Rejected _ => [ToastError "Failed to load data"]
     end.
Proof.
  unfold fetchData.
  destruct (getStudentDashboard api) as [d | reason];
    destruct (getMyGrades api); split; try reflexivity.
  all: unfold portal_view; simpl; by destruct (student d).
Qed.

(** The dashboard page fetches exactly what the component it then shows is
    fed with, for every user type; it shows "Unknown user type", having
    fetched nothing, exactly for the users whose sidebar is empty, among
    them the finance officers and the staff. *)
Theorem dashboard_matches_fetch_and_sidebar (st : Routes.AuthState) :
  let userType := Routes.user_type_of st in
  dashboard_requests userType = feeds (dashboard_view userType)
  /\ (dashboard_view userType = UnknownUserType <-> Shell.getMenuItems st = [])
  /\ Forall (fun t => dashboard_view (Some t) = UnknownUserType
                      /\ dashboard_requests (Some t) = [])
            ["finance_officer"; "staff"].
Proof.
  intros userType. unfold dashboard_requests, dashboard_view, Shell.getMenuItems.
  fold userType.
  split; [| split].
  - repeat (match goal with
            | |- context [if ?b then _ else _] => destruct b
            end; try reflexivity).
  - repeat (match goal with
            | |- context [if ?b then _ else _] => destruct b
            end; try (split; discriminate)).
    by split.
  - repeat constructor.
Qed.



End PagesProofs.

(** ** Routes by role, and the header every request carries *)

Section RoleRoutes.
Import Routes.

Lemma includes_singleton (t : string) (type : option string) :
  includes [t] type = bool_decide (type = Some t).
Proof.
  destruct type as [s |]; cbn [includes].
  - destruct (decide (s = t)) as [-> | Hne].
    + rewrite !bool_decide_eq_true_2; [done .. |]. apply elem_of_cons. by left.
    + rewrite !bool_decide_eq_false_2; [done | congruence |].
      intros [? | Hnil%elem_of_nil]%elem_of_cons; done.
  - symmetry. by apply bool_decide_eq_false_2.
Qed.

(** The three role routes are for their role alone: a signed-in user gets
    My Classes only as a teacher, and My Children and Leave Request only as
    a parent; everyone else, the administrators included, is redirected to
    the dashboard. *)
Theorem role_routes_exact (st : AuthState) (u : AuthUser) :
  mounted st -> user st = Some u ->
  render st (AppRoutes ["my-classes"])
    = LayoutView (if bool_decide (user_type u = Some "teacher")
                  then PlaceholderView "My Classes" else NavigateTo "/dashboard")
  /\ render st (AppRoutes ["my-children"])
     = LayoutView (if bool_decide (user_type u = Some "parent")
                   then PlaceholderView "My Children" else NavigateTo "/dashboard")
  /\ render st (AppRoutes ["leave-request"])
     = LayoutView (if bool_decide (user_type u = Some "parent")
                   then PlaceholderView "Leave Request"
                   else NavigateTo "/dashboard").
Proof.
  intros Hm Hu. pose proof (mounted_not_loading st Hm) as Hl.
  assert (forall t title,
             render st (EProtected None
                          (ELayout (EProtected (Some [t]) (EPlaceholder title))))
             = LayoutView (if bool_decide (user_type u = Some t)
                           then PlaceholderView title
                           else NavigateTo "/dashboard")) as Hrole.
  { intros t title. cbn [render].
    unfold ProtectedRoute, isAuthenticated, user_type_of. rewrite Hl, Hu.
    cbn [negb]. rewrite includes_singleton.
    by destruct (bool_decide (user_type u = Some t)). }
  repeat split; apply Hrole.
Qed.

Lemma role_routes_exact_witness :
  render (Shell.signed_in_as "principal") (AppRoutes ["my-classes"])
    = LayoutView (NavigateTo "/dashboard")
  /\ render (Shell.signed_in_as "principal") (AppRoutes ["my-children"])
     = LayoutView (NavigateTo "/dashboard")
  /\ render (Shell.signed_in_as "principal") (AppRoutes ["leave-request"])
     = LayoutView (NavigateTo "/dashboard").
Proof.
  apply (role_routes_exact (Shell.signed_in_as "principal")
           {| id := "u-1"; user_type := Some "principal" |}).
  - apply mounted_login, mounted_effect.
  - reflexivity.
Defined.

(** The students, attendance, grades, assignments and gradebook routes have
    no guard of their own: every signed-in user, whatever the user type, is
    shown their pages. *)
Theorem shared_routes_open_to_all (st : AuthState) (u : AuthUser) :
  mounted st -> user st = Some u ->
  render st (AppRoutes ["students"]) = LayoutView (PageView "StudentsPage")
  /\ render st (AppRoutes ["attendance"]) = LayoutView (PageView "AttendancePage")
  /\ Forall (fun segment =>
               render st (AppRoutes [segment]) = LayoutView (PageView "GradesPage"))
            ["grades"; "assignments"; "gradebook"].
Proof.
  intros Hm Hu. pose proof (mounted_not_loading st Hm) as Hl.
  assert (forall name,
             render st (EProtected None (ELayout (EPage name)))
             = LayoutView (PageView name)) as Hopen.
  { intros name. cbn [render]. unfold ProtectedRoute, isAuthenticated.
    by rewrite Hl, Hu. }
  split; [apply Hopen |]. split; [apply Hopen |].
  repeat constructor; apply Hopen.
Qed.

Lemma shared_routes_open_to_all_witness :
  render (Shell.signed_in_as "student") (AppRoutes ["students"])
    = LayoutView (PageView "StudentsPage")
  /\ render (Shell.signed_in_as "student") (AppRoutes ["attendance"])
     = LayoutView (PageView "AttendancePage")
  /\ Forall (fun segment =>
               render (Shell.signed_in_as "student") (AppRoutes [segment])
               = LayoutView (PageView "GradesPage"))
            ["grades"; "assignments"; "gradebook"].
Proof.
  apply (shared_routes_open_to_all (Shell.signed_in_as "student")
           {| id := "u-1"; user_type := Some "student" |}).
  - apply mounted_login, mounted_effect.
  - reflexivity.
Defined.

End RoleRoutes.

Section BearerHeader.
Import ApiClient.
Variable backend : World -> Config -> option nat + string.
Variable refresh_endpoint : World -> string -> Promise.settled (option string).

Lemma request_interceptor_header (w : World) (c : Config) :
  is_Some (getItem_truthy "access_token" w) \/ is_Some (authorization c) ->
  is_Some (authorization (request_interceptor w c)).
Proof.
  intros Hwhy. unfold request_interceptor.
  destruct (getItem_truthy "access_token" w) as [t |]; [by eexists |].
  destruct Hwhy as [[? [=]] | Hc]; done.
Qed.

(** While an access token is stored, nothing leaves the client without an
    Authorization header: neither the request itself nor its retry after a
    refresh, whatever the refresh returned. *)
Theorem requests_carry_a_token (c : Config) (w : World) (token : string) :
  getItem_truthy "access_token" w = Some token ->
  exists w' out new,
    api backend refresh_endpoint 2 c w = Some (w', out)
    /\ log w' = (log w ++ new)%list
    /\ Forall (fun e => match e with
                        | Sent request => is_Some (authorization request)
                        | _ => True
                        end) new
    /\ In (Sent {| url := url c; authorization := Some ("Bearer " +:+ token);
                   _retry := _retry c |}) new.
Proof.
  intros Htoken. cbn [api].
  set (sent := request_interceptor w c). set (w1 := emit (Sent sent) w).
  assert (sent = {| url := url c; authorization := Some ("Bearer " +:+ token);
                    _retry := _retry c |}) as Hsent.
  { subst sent. unfold request_interceptor. by rewrite Htoken. }
  assert (is_Some (authorization sent)) as Hhdr by (rewrite Hsent; by eexists).
  destruct (backend w1 sent) as [st | body].
  2:{ exists w1, (Response body), [Sent sent]. repeat split; try done.
      - by repeat constructor.
      - left. by rewrite Hsent. }
  destruct (bool_decide (st = Some 401%nat) && negb (_retry sent)) eqn:Hcond.
  2:{ eexists w1, _, [Sent sent]. repeat split; try done.
      - by repeat constructor.
      - left. by rewrite Hsent. }
  destruct (getItem_truthy "refresh_token" w1) as [rt |].
  2:{ eexists w1, _, [Sent sent]. repeat split; try done.
      - by repeat constructor.
      - left. by rewrite Hsent. }
  set (w2 := emit (RefreshPosted rt) w1).
  destruct (refresh_endpoint w2 rt) as [fresh | reason].
  - set (w3 := setItem "access_token" (stored_token fresh) w2).
    set (again := request_interceptor w3 (mark_retry sent)).
    assert (is_Some (authorization again)) as Hhdr2.
    { subst again. apply request_interceptor_header. by right. }
    assert (_retry again = true) as Hagain.
    { subst again. by rewrite request_interceptor_retry. }
    exists (emit (Sent again) w3).
    exists (match backend (emit (Sent again) w3) again with
            | inr body => Response body
            | inl st' => Failed {| status := st'; config := again |}
            end).
    exists [Sent sent; RefreshPosted rt; SetItem "access_token" (stored_token fresh);
            Sent again].
    split.
    { destruct (backend (emit (Sent again) w3) again); [| reflexivity].
      rewrite Hagain. cbn [negb]. by rewrite andb_false_r. }
    split; [simpl; by rewrite <- !app_assoc |].
    split; [by repeat constructor |].
    left. by rewrite Hsent.
  - eexists _, _, [Sent sent; RefreshPosted rt; RemoveItem "access_token";
                   RemoveItem "refresh_token"; RemoveItem "user";
                   Redirected "/login"].
    split; [reflexivity |].
    split; [simpl; by rewrite <- !app_assoc |].
    split; [by repeat constructor |].
    left. by rewrite Hsent.
Qed.

End BearerHeader.

Section BearerHeaderSample.
Import ApiClient.

Lemma requests_carry_a_token_witness :
  exists w' out new,
    api ClientSamples.renewing_backend ClientSamples.granting_refresh 2
      class_attendance_request signed_in = Some (w', out)
    /\ log w' = (log signed_in ++ new)%list
    /\ Forall (fun e => match e with
                        | Sent request => is_Some (authorization request)
                        | _ => True
                        end) new
    /\ In (Sent {| url := "/attendance/class/class-1";
                   authorization := Some "Bearer at-1"; _retry := false |}) new.
Proof.
  apply (requests_carry_a_token ClientSamples.renewing_backend
           ClientSamples.granting_refresh class_attendance_request signed_in
           "at-1").
  by vm_compute.
Defined.

End BearerHeaderSample.
